(** * Evaluation of synthetic tables against real ones (mimic/evaluation.py)

    A shallow embedding of the evaluation script: column isolation, the
    per-column prediction score with its constant fallback, the
    predictive-utility aggregate and the marginal-probability aggregate.

    Modelling conventions.
    - numpy/pandas floating-point numbers are modelled as exact rationals
      ([Q]); rounding, NaN and infinities are outside the model, and
      numeric equality of results is [Qeq] ([==]).
    - A pandas DataFrame is a row count together with its labelled columns
      in order.  The model follows pandas on frames whose column labels are
      pairwise distinct ([NoDup (columns df)]).
    - Python exceptions are values of [exn]; code that may raise and that
      prints or calls the modelling library runs in [Run], which records
      the sequence of those effects and ends in a value or an exception.
    - The model factory and the scoring function are arguments, as in the
      source.  They are deterministic (the script seeds its random number
      generators), hence functions. *)

From Stdlib Require Import QArith Sorted Lqa.
From stdpp Require Import base option list gmap strings.

Local Open Scope string_scope.
Local Open Scope list_scope.

(** ** Data *)

Definition label := string.

(** One-dimensional float array. *)
Definition vec := list Q.

(** Two-dimensional float array, stored by columns; [n_rows] keeps the
    shape when there is no column. *)
Record ndarray2 : Type := Ndarray2 {
  n_rows : nat;
  col_data : list vec
}.

(** pandas DataFrame: the length of its index and its labelled columns. *)
Record DataFrame : Type := mkDataFrame {
  nrows : nat;
  series : list (label * vec)
}.

(** [df.columns] *)
Definition columns (df : DataFrame) : list label := (series df).*1.

(** [df.values] *)
Definition values (df : DataFrame) : ndarray2 :=
  {| n_rows := nrows df; col_data := (series df).*2 |}.

(** Exceptions.  All of them are subclasses of Python's [Exception]. *)
Inductive exn : Type :=
  | Exception (msg : string)          (* raise Exception('...') *)
  | RuntimeError (msg : string)       (* a bare [raise] with nothing to re-raise *)
  | KeyError (key : label)            (* a column label that the frame lacks *)
  | IndexError (msg : string)         (* index out of bounds *)
  | ZeroDivisionError (msg : string)  (* [/] by a zero Python int *)
  | LibraryError (msg : string).      (* raised by the model or the scorer *)

(** Effects, in the order the program performs them. *)
Inductive event : Type :=
  | Call_fit (X : ndarray2) (y : vec)              (* clf.fit(X, y) *)
  | Call_predict_proba (X : ndarray2)              (* clf.predict_proba(X) *)
  | Call_score (y_true y_pred : vec)               (* score(y_true, y_pred) *)
  | Print_scores (i : nat) (real_score synthetic_score : Q)
  | Print_exn (e : exn)                            (* print(e) *)
  | Print_failed (i : nat)                         (* print(i, 'Failed.') *)
  | Savefig (file : string) (xs ys : list Q)       (* scatter plot saved *)
  | To_csv (file : string) (xs ys : list Q).       (* the plotted pairs *)

(** ** Computations that log effects and may raise *)

Definition Run (A : Type) : Type := (list event * (exn + A))%type.

Definition ret {A} (a : A) : Run A := ([], inr a).
Definition raise {A} (e : exn) : Run A := ([], inl e).
Definition emit (ev : event) : Run unit := ([ev], inr tt).

Definition bind {A B} (m : Run A) (k : A → Run B) : Run B :=
  match m with
  | (t, inl e) => (t, inl e)
  | (t, inr a) => (t ++ (k a).1, (k a).2)
  end.

(** [try: body  except ...: handler e] for a handler that catches every
    exception of the model. *)
Definition try_except {A} (body : Run A) (handler : exn → Run A) : Run A :=
  match body with
  | (t, inl e) => (t ++ (handler e).1, (handler e).2)
  | (t, inr a) => (t, inr a)
  end.

(** A pure step that may raise. *)
Definition lift {A} (r : exn + A) : Run A := ([], r).

Declare Scope run_scope.
Delimit Scope run_scope with run.
Notation "'let*' x := m 'in' k" := (bind m (λ x, k))
  (at level 10, x name, m at level 100, k at level 200) : run_scope.
Notation "'let*' ' pat := m 'in' k" :=
  (bind m (λ x, match x with pat => k end))
  (at level 10, pat pattern, m at level 100, k at level 200) : run_scope.
Notation "m ;; k" := (bind m (λ _, k))
  (at level 100, k at level 200, right associativity) : run_scope.
Local Open Scope run_scope.

(** The effects and the outcome of a run. *)
Definition trace {A} (m : Run A) : list event := m.1.
Definition outcome {A} (m : Run A) : exn + A := m.2.

(** The value a run returns, if it returns. *)
Definition returned {A} (m : Run A) : option A :=
  match m.2 with inr a => Some a | inl _ => None end.

(** ** numpy and pandas primitives *)

(** [np.unique(a, return_counts=True)]: the sorted distinct values, each
    with its number of occurrences. *)
Fixpoint insert_count (x : Q) (l : list (Q * nat)) : list (Q * nat) :=
  match l with
  | [] => [(x, 1%nat)]
  | (v, n) :: l' =>
      match (x ?= v)%Q with
      | Eq => (v, S n) :: l'
      | Lt => (x, 1%nat) :: (v, n) :: l'
      | Gt => (v, n) :: insert_count x l'
      end
  end.

Definition np_unique_counts (a : vec) : list (Q * nat) :=
  fold_right insert_count [] a.

(** [np.unique(a)] *)
Definition np_unique (a : vec) : vec := (np_unique_counts a).*1.

(** [np.full(shape, fill)] for a one-dimensional shape. *)
Definition np_full (n : nat) (fill : Q) : vec := replicate n fill.

(** [a[0]] on a one-dimensional array. *)
Definition item0 (a : vec) : exn + Q :=
  match a with
  | [] => inl (IndexError "index 0 is out of bounds for axis 0 with size 0")
  | x :: _ => inr x
  end.

(** [P[:,1]] on a two-dimensional array. *)
Definition column1 (P : ndarray2) : exn + vec :=
  match col_data P !! 1%nat with
  | Some c => inr c
  | None => inl (IndexError "index 1 is out of bounds for axis 1")
  end.

(** [df[column]] *)
Definition getitem (df : DataFrame) (column : label) : exn + vec :=
  match list_find (λ s, s.1 = column) (series df) with
  | Some (_, s) => inr s.2
  | None => inl (KeyError column)
  end.

(** [df.drop(columns=[column])] *)
Definition df_drop (df : DataFrame) (column : label) : exn + DataFrame :=
  if decide (column ∈ columns df)
  then inr {| nrows := nrows df;
              series := filter (λ s, s.1 ≠ column) (series df) |}
  else inl (KeyError column).

(** [.astype('float32')]: the cells are rationals already. *)
Definition astype_float32 {A} (a : A) : A := a.

(** Source: isolate_column.  Splits a frame into the array of the other
    columns and the column itself. *)
Definition isolate_column (df : DataFrame) (column : label)
    : exn + (ndarray2 * vec) :=
  match df_drop df column with
  | inl e => inl e
  | inr rest =>
      match getitem df column with
      | inl e => inl e
      | inr y => inr (astype_float32 (values rest), astype_float32 y)
      end
  end.

(** ** The modelling library *)

(** What the source needs of a model object: [fit] (which returns the
    fitted object or raises) and [predict_proba] (one column of
    probabilities per class, or raises). *)
Class Classifier (Clf : Type) : Type := {
  fit : Clf → ndarray2 → vec → exn + Clf;
  predict_proba : Clf → ndarray2 → exn + ndarray2
}.

(** A scoring function takes the ground truth and a prediction. *)
Definition scorer : Type := vec → vec → exn + Q.

Definition call_fit `{Classifier Clf} (clf : Clf) (X : ndarray2) (y : vec)
    : Run Clf :=
  emit (Call_fit X y) ;; lift (fit clf X y).

Definition call_predict_proba `{Classifier Clf} (clf : Clf) (X : ndarray2)
    : Run ndarray2 :=
  emit (Call_predict_proba X) ;; lift (predict_proba clf X).

Definition call_score (score : scorer) (y_true y_pred : vec) : Run Q :=
  emit (Call_score y_true y_pred) ;; lift (score y_true y_pred).

(** ** Per-column prediction score *)

(** The [try] block of get_prediction_score. *)
Definition fit_and_predict `{Classifier Clf} (clf : Clf)
    (X_train : ndarray2) (y_train : vec) (X_test : ndarray2) : Run vec :=
  let* fitted := call_fit clf X_train y_train in
  let* P := call_predict_proba fitted X_test in
  lift (column1 P).

(** Its bare [except:] handler. *)
Definition constant_prediction (y_train y_test : vec) : Run vec :=
  let* y0 := lift (item0 y_train) in
  ret (np_full (length y_test) y0).

(** Source: get_prediction_score. *)
Definition get_prediction_score `{Classifier Clf}
    (X_train : ndarray2) (y_train : vec) (X_test : ndarray2) (y_test : vec)
    (Model : unit → Clf) (score : scorer) : Run Q :=
  if ((length (np_unique y_train) =? 0) || (length (np_unique y_test) =? 0))%nat
  then raise (RuntimeError "No active exception to reraise")
  else
    let clf := Model () in
    let* prediction :=
      try_except (fit_and_predict clf X_train y_train X_test)
                 (λ _, constant_prediction y_train y_test) in
    call_score score y_test prediction.

(** ** Predictive-utility aggregate *)

(** [lambda pair: (pair[0] - pair[1]) ** 2] *)
Definition sq_diff (pair : Q * Q) : Q := ((pair.1 - pair.2) ^ 2)%Q.

(** Python's [sum]: a left fold from 0. *)
Definition py_sum (l : list Q) : Q := fold_left Qplus l 0%Q.

(** [enumerate(l)] *)
Definition enumerate {A} (l : list A) : list (nat * A) :=
  zip (seq 0 (length l)) l.

(** [for x in items: body], threading the loop's variables. *)
Fixpoint for_each {A S} (items : list A) (body : A → S → Run S) (s : S)
    : Run S :=
  match items with
  | [] => ret s
  | x :: rest => let* s' := body x s in for_each rest body s'
  end.

(** The two score lists the loop appends to. *)
Definition score_lists : Type := (list Q * list Q)%type.

(** The [if plot:] block: a scatter plot of two lists of numbers and a CSV
    file of the same pairs; both need lists of one length. *)
Definition plot_scores (png csv : string) (xs ys : list Q) : Run unit :=
  if decide (length xs = length ys)
  then emit (Savefig png xs ys) ;; emit (To_csv csv xs ys)
  else raise (LibraryError "x and y must be the same size").

Section prediction.
Context `{Classifier Clf}.
Variables (train test synthetic : DataFrame).
Variables (Model : unit → Clf) (score : scorer).

(** The [try] block of the loop body. *)
Definition score_column (i : nat) (acc : score_lists)
    (X_train_real : ndarray2) (y_train_real : vec)
    (X_train_synthetic : ndarray2) (y_train_synthetic : vec)
    (X_test : ndarray2) (y_test : vec) : Run score_lists :=
  let* real_score :=
    get_prediction_score X_train_real y_train_real
      X_test y_test Model score in
  let* synthetic_score :=
    get_prediction_score X_train_synthetic y_train_synthetic
      X_test y_test Model score in
  emit (Print_scores i real_score synthetic_score) ;;
  ret (acc.1 ++ [real_score], acc.2 ++ [synthetic_score]).

(** The [except Exception as e:] block of the loop body. *)
Definition report_failure (i : nat) (acc : score_lists) (e : exn)
    : Run score_lists :=
  emit (Print_exn e) ;; emit (Print_failed i) ;; ret acc.

(** One iteration of the loop over [enumerate(train.columns)]. *)
Definition evaluate_column (ic : nat * label) (acc : score_lists)
    : Run score_lists :=
  let* '(X_train_real, y_train_real) :=
    lift (isolate_column train ic.2) in
  let* '(X_train_synthetic, y_train_synthetic) :=
    lift (isolate_column synthetic ic.2) in
  let* '(X_test, y_test) := lift (isolate_column test ic.2) in
  try_except
    (score_column ic.1 acc X_train_real y_train_real
       X_train_synthetic y_train_synthetic X_test y_test)
    (report_failure ic.1 acc).

(** Source: feature_prediction_evaluation. *)
Definition feature_prediction_evaluation
    (training_proportion : Q) (plot : bool) : Run Q :=
  if decide (list_to_set (columns train) ≠@{gset label}
             list_to_set (columns synthetic))
  then raise (Exception "Columns of given datasets are not identical.")
  else
    let* '(real_classifier_scores, synthetic_classifier_scores) :=
      for_each (enumerate (columns train)) evaluate_column ([], []) in
    (if plot
     then plot_scores "dw-pred.png" "dw-pred.csv"
            real_classifier_scores synthetic_classifier_scores
     else ret ()) ;;
    ret (py_sum (sq_diff <$>
                   zip real_classifier_scores synthetic_classifier_scores)).
End prediction.

(** ** Marginal-probability aggregate *)

(** [a / b] where [b] is a Python int: true division, which raises on a
    zero divisor. *)
Definition py_truediv (a b : nat) : exn + Q :=
  if decide (b = 0%nat)
  then inl (ZeroDivisionError "division by zero")
  else inr (inject_Z (Z.of_nat a) / inject_Z (Z.of_nat b))%Q.

(** [counts[1]] *)
Definition item1 (counts : list nat) : exn + nat :=
  match counts !! 1%nat with
  | Some c => inr c
  | None => inl (IndexError "index 1 is out of bounds for axis 0")
  end.

(** [(0 if len(counts) <= 1 else counts[1]) / n] *)
Definition index1_probability (counts : list nat) (n : nat) : exn + Q :=
  match (if (length counts <=? 1)%nat then inr 0%nat else item1 counts) with
  | inl e => inl e
  | inr c => py_truediv c n
  end.

(** One iteration of the loop over [real.columns]; [props] holds the two
    columns of the result table, filled in index order. *)
Definition column_probabilities (real synthetic : DataFrame)
    (column : label) (props : score_lists) : Run score_lists :=
  let* real_column := lift (getitem real column) in
  let counts_real := (np_unique_counts real_column).*2 in
  let* synthetic_column := lift (getitem synthetic column) in
  let counts_synthetic := (np_unique_counts synthetic_column).*2 in
  let* p_real :=
    lift (index1_probability counts_real (length real_column)) in
  let* p_synthetic :=
    lift (index1_probability counts_synthetic (length synthetic_column)) in
  ret (props.1 ++ [p_real], props.2 ++ [p_synthetic]).

(** Source: feature_probabilities_evaluation. *)
Definition feature_probabilities_evaluation (real synthetic : DataFrame)
    (plot : bool) : Run Q :=
  if decide (list_to_set (columns real) ≠@{gset label}
             list_to_set (columns synthetic))
  then raise (Exception "Columns of given datasets are not identical.")
  else
    let* '(props_real, props_synthetic) :=
      for_each (columns real) (column_probabilities real synthetic) ([], []) in
    (if plot
     then plot_scores "dw-prob.png" "dw-prob.csv" props_real props_synthetic
     else ret ()) ;;
    ret (py_sum (sq_diff <$> zip props_real props_synthetic)).

(** ** The marginal probability of a column, as described *)

(** Number of cells of [a] equal to [v]. *)
Definition count_value (v : Q) (a : vec) : nat :=
  length (filter (λ x, Qeq_bool x v = true) a).

(** The cells of a column of a frame. *)
Definition cells (df : DataFrame) (column : label) : vec :=
  match getitem df column with
  | inr a => a
  | inl _ => []
  end.

(** Described behaviour: the number of cells that hold the second of the
    sorted distinct values, over the number of rows; 0 when there are fewer
    than two distinct values. *)
Definition second_value_share (a : vec) : Q :=
  match np_unique a !! 1%nat with
  | Some v =>
      (inject_Z (Z.of_nat (count_value v a)) / inject_Z (Z.of_nat (length a)))%Q
  | None => 0%Q
  end.

(** Described behaviour: the sum over the columns of the squared
    differences of these shares. *)
Definition sum_of_share_differences (real synthetic : DataFrame) : Q :=
  foldr Qplus 0%Q
    ((λ column, sq_diff (second_value_share (cells real column),
                         second_value_share (cells synthetic column)))
       <$> columns real).

(** The order in which [np.unique] lists the distinct values. *)
Definition value_lt (p q : Q * nat) : Prop := (p.1 < q.1)%Q.

(** The total that a table of counts holds for the values equal to [v]. *)
Definition counted (v : Q) (l : list (Q * nat)) : nat :=
  sum_list (filter (λ p, Qeq_bool p.1 v = true) l).*2.

(** ** The aggregate, column by column *)

(** What one iteration leaves in the two lists: both scores of a column
    whose evaluation succeeds, nothing otherwise. *)
Definition appended (acc : score_lists) (p : option (Q * Q)) : score_lists :=
  match p with
  | Some (r, s) => (acc.1 ++ [r], acc.2 ++ [s])
  | None => acc
  end.

Section aggregate.
Context `{Classifier Clf}.
Variables (train test synthetic : DataFrame).
Variables (Model : unit → Clf) (score : scorer).

(** The score of a model trained on column [column] of [df] (as label,
    the other columns as features) against the same column of the
    holdout table; [None] when the evaluation raises. *)
Definition holdout_score (df : DataFrame) (column : label) : option Q :=
  match isolate_column df column, isolate_column test column with
  | inr (X, y), inr (X_test, y_test) =>
      returned (get_prediction_score X y X_test y_test Model score)
  | _, _ => None
  end.

(** Columns present in the three tables. *)
Definition shared (column : label) : Prop :=
  column ∈ columns train ∧ column ∈ columns synthetic ∧
  column ∈ columns test.

(** The pair of scores of a column whose evaluation succeeds. *)
Definition column_scores (column : label) : option (Q * Q) :=
  match holdout_score train column, holdout_score synthetic column with
  | Some real_score, Some synthetic_score =>
      Some (real_score, synthetic_score)
  | _, _ => None
  end.

(** Sum of the squared score differences over the columns whose
    evaluation succeeds. *)
Definition sum_over_succeeded : Q :=
  foldr Qplus 0%Q (sq_diff <$> omap column_scores (columns train)).
End aggregate.

(** ** What the log of a run shows *)

(** The column index that a printed line reports. *)
Definition reported_column (ev : event) : option nat :=
  match ev with
  | Print_scores i _ _ => Some i
  | Print_failed i => Some i
  | _ => None
  end.

(** The data that a library call may see: a model is fitted on a column
    split of the real training table or of the synthetic table, asked to
    predict on the features of a column split of the holdout table, and
    scored against a column of the holdout table. *)
Definition respects_split (train test synthetic : DataFrame) (ev : event)
    : Prop :=
  match ev with
  | Call_fit X y =>
      ∃ column, isolate_column train column = inr (X, y) ∨
                isolate_column synthetic column = inr (X, y)
  | Call_predict_proba X =>
      ∃ column y, isolate_column test column = inr (X, y)
  | Call_score y_true _ =>
      ∃ column X, isolate_column test column = inr (X, y_true)
  | _ => True
  end.

(** ** Class balancing *)

(** [np.where(label == v)[0]]: the positions of the labels equal to [v]. *)
Definition np_where_eq (v : Q) (label : vec) : list nat :=
  (filter (λ ix, Qeq_bool ix.2 v = true) (enumerate label)).*1.

(** [data[i]]: row [i] of a two-dimensional array. *)
Definition row_at {A} (data : list A) (i : nat) : exn + A :=
  match data !! i with
  | Some r => inr r
  | None => inl (IndexError "index is out of bounds for axis 0")
  end.

(** [[data[i] for i in index]] *)
Fixpoint rows_at {A} (data : list A) (index : list nat) : exn + list A :=
  match index with
  | [] => inr []
  | i :: index' =>
      match row_at data i with
      | inl e => inl e
      | inr r =>
          match rows_at data index' with
          | inl e => inl e
          | inr rs => inr (r :: rs)
          end
      end
  end.

(** The arrays of rows that the function handles: [np.array] of an empty
    list is a one-dimensional array without elements, any other array here
    is two-dimensional, also when it has no row. *)
Inductive rows_array (A : Type) : Type :=
  | Empty1D
  | Rows (rows : list A).
Arguments Empty1D {A}.
Arguments Rows {A} rows.

(** [np.array(rows)] *)
Definition np_array {A} (rows : list A) : rows_array A :=
  match rows with
  | [] => Empty1D
  | _ => Rows rows
  end.

(** [len(a)] *)
Definition len {A} (a : rows_array A) : nat :=
  match a with
  | Empty1D => 0
  | Rows rows => length rows
  end.

(** [np.concatenate((a, b), axis=0)] *)
Definition np_concatenate {A} (a b : rows_array A) : exn + rows_array A :=
  match a, b with
  | Rows r1, Rows r2 => inr (Rows (r1 ++ r2))
  | Empty1D, Empty1D => inr Empty1D
  | _, _ =>
      inl (LibraryError
             "all the input arrays must have same number of dimensions")
  end.

Section balancing.
Context {A : Type}.

(** [train_test_split(rows, test_size=k, random_state=0)] of the modelling
    library: the training part and the test part, or an exception. *)
Variable train_test_split : list A → nat → exn + (list A * list A).

(** The tail of balance: as many labels 0 as labels 1. *)
Definition relabel (data : rows_array A) : Run (rows_array A * vec) :=
  let label_new := replicate (len data / 2) 0%Q in
  let label_new := label_new ++ replicate (len data / 2) 1%Q in
  ret (data, label_new).

(** Source: balance, on a two-dimensional array of rows. *)
Definition balance (data : list A) (label : vec) : Run (rows_array A * vec) :=
  let index_0 := np_where_eq 0 label in
  let index_1 := np_where_eq 1 label in
  let* data_0 := lift (rows_at data index_0) in
  let* data_1 := lift (rows_at data index_1) in
  if (length index_1 <? length index_0)%nat then
    let* '(data_0_disc, temp_remain) :=
      lift (train_test_split data_0 (length data_1)) in
    let* data' :=
      lift (np_concatenate (Rows temp_remain) (np_array data_1)) in
    relabel data'
  else if (length index_0 <? length index_1)%nat then
    let* '(data_1_disc, temp_remain) :=
      lift (train_test_split data_1 (length data_0)) in
    let* data' :=
      lift (np_concatenate (np_array data_0) (Rows temp_remain)) in
    relabel data'
  else ret (Rows data, label).
End balancing.

(** A split that keeps the last rows as the test part and, like the
    library's, refuses a test size of 0 or of all the rows. *)
Definition split_last {A} (rows : list A) (test_size : nat)
    : exn + (list A * list A) :=
  if ((test_size =? 0) || (length rows <=? test_size))%nat
  then inl (LibraryError "test_size should be positive and smaller than the number of samples")
  else inr (take (length rows - test_size) rows,
            drop (length rows - test_size) rows).


(** ** The per-column score and its model factory *)

(** Source: get_prediction_score, with the call [Model()] of its fifth
    line as a step that may raise: it comes after the check of the labels
    and before the [try] block.  [get_prediction_score] above is this
    function for a factory that returns. *)
Definition get_prediction_score_from `{Classifier Clf}
    (X_train : ndarray2) (y_train : vec) (X_test : ndarray2) (y_test : vec)
    (Model : unit → exn + Clf) (score : scorer) : Run Q :=
  if ((length (np_unique y_train) =? 0) || (length (np_unique y_test) =? 0))%nat
  then raise (RuntimeError "No active exception to reraise")
  else
    let* clf := lift (Model ()) in
    let* prediction :=
      try_except (fit_and_predict clf X_train y_train X_test)
                 (λ _, constant_prediction y_train y_test) in
    call_score score y_test prediction.

(** A classifier that accepts any labels, also labels of one class, and
    always gives two columns of probabilities, all weight on class 0. *)
Module Lenient.

Inductive always_0 : Type :=
  | Always_0.

#[global] Instance always_0_classifier : Classifier always_0 := {
  fit clf X y := inr clf;
  predict_proba clf X :=
    inr {| n_rows := n_rows X;
           col_data := [replicate (n_rows X) 1%Q;
                        replicate (n_rows X) 0%Q] |}
}.

Definition Model (_ : unit) : always_0 := Always_0.

End Lenient.

(** Further tables and data for worked instances. *)
Module Samples.

(** A holdout table with the columns A and B and no row. *)
Definition holdout_without_rows : DataFrame :=
  {| nrows := 0; series := [("A", []); ("B", [])] |}.

(** Five rows, named by numbers: three of class 0 and two of class 1. *)
Definition five_rows : list nat := [10; 20; 30; 40; 50]%nat.
Definition five_labels : vec := [0; 0; 0; 1; 1]%Q.

(** Four rows, two of each class, and three rows of class 0 alone. *)
Definition four_rows : list nat := [10; 20; 30; 40]%nat.
Definition four_labels : vec := [0; 1; 1; 0]%Q.
Definition three_rows : list nat := [10; 20; 30]%nat.
Definition three_labels : vec := [0; 0; 0]%Q.

End Samples.

(** ** A concrete classifier, scorer and tables *)

Module Demo.

(** A deterministic classifier on the first feature column.  Like the
    library's logistic regression it refuses labels of a single class;
    fitted, it has learnt whether the label mostly equals the first
    feature, and predicts that feature or its complement. *)
Inductive copy_clf : Type :=
  | Unfitted
  | Fitted (same : bool).

Definition matches (feature y : vec) : nat :=
  length (filter (λ p, Qeq_bool p.1 p.2 = true) (zip feature y)).

Definition complement (a : vec) : vec := (λ v, 1 - v)%Q <$> a.

#[global] Instance copy_classifier : Classifier copy_clf := {
  fit _ X y :=
    if (length (np_unique y) <=? 1)%nat
    then inl (LibraryError "needs samples of at least 2 classes")
    else
      match col_data X with
      | [] => inl (LibraryError "0 feature(s) found")
      | feature :: _ =>
          inr (Fitted (length y <=? 2 * matches feature y)%nat)
      end;
  predict_proba clf X :=
    match clf, col_data X with
    | Unfitted, _ => inl (LibraryError "this instance is not fitted yet")
    | _, [] => inl (LibraryError "0 feature(s) found")
    | Fitted same, feature :: _ =>
        let p := if same then feature else complement feature in
        inr {| n_rows := n_rows X; col_data := [complement p; p] |}
    end
}.

Definition Model (_ : unit) : copy_clf := Unfitted.

(** Share of rows whose prediction is on the side of the truth; like
    the library's ROC-AUC it raises when the truth has one class. *)
Definition agree (t p : Q) : bool :=
  bool_decide (Qle_bool (1 # 2) p = Qle_bool (1 # 2) t).

Definition accuracy (y_true y_pred : vec) : exn + Q :=
  if (length (np_unique y_true) <=? 1)%nat
  then inl (LibraryError "Only one class present in y_true")
  else inr (inject_Z (Z.of_nat
              (length (filter (λ tp, agree tp.1 tp.2 = true)
                         (zip y_true y_pred))))
            / inject_Z (Z.of_nat (length y_true)))%Q.

(** The tables of the end-to-end example: columns A and B. *)
Definition real_train : DataFrame :=
  {| nrows := 4; series := [("A", [0; 1; 0; 1]%Q); ("B", [1; 0; 1; 1]%Q)] |}.

Definition real_test : DataFrame :=
  {| nrows := 2; series := [("A", [0; 1]%Q); ("B", [1; 0]%Q)] |}.

(** A synthetic table with the columns of the real one, in another
    order. *)
Definition generated : DataFrame :=
  {| nrows := 4; series := [("B", [1; 1; 0; 1]%Q); ("A", [1; 1; 0; 0]%Q)] |}.

(** A synthetic table that lacks column B. *)
Definition generated_A : DataFrame :=
  {| nrows := 4; series := [("A", [1; 1; 0; 0]%Q)] |}.

(** Holdout tables whose columns are not those of the training table:
    one has a further column C, one lacks column B. *)
Definition wide_test : DataFrame :=
  {| nrows := 2;
     series := [("A", [0; 1]%Q); ("B", [1; 0]%Q); ("C", [1; 1]%Q)] |}.

Definition narrow_test : DataFrame :=
  {| nrows := 2; series := [("A", [0; 1]%Q)] |}.

(** A holdout table whose column B has one class, on which the scorer
    raises. *)
Definition flat_test : DataFrame :=
  {| nrows := 2; series := [("A", [0; 1]%Q); ("B", [1; 1]%Q)] |}.

(** A table with one column and no row. *)
Definition no_rows : DataFrame :=
  {| nrows := 0; series := [("A", [])] |}.

End Demo.

(** * Properties *)

(** ** Laws of [Run] *)

Lemma run_eta {A} (m : Run A) : m = (trace m, outcome m).
Proof. by destruct m. Qed.

Lemma bind_ret_l {A B} (a : A) (k : A → Run B) : bind (ret a) k = k a.
Proof. unfold bind, ret. simpl. by destruct (k a). Qed.

Lemma bind_lift_inr {A B} (a : A) (k : A → Run B) : bind (lift (inr a)) k = k a.
Proof. apply bind_ret_l. Qed.

Lemma bind_lift_inl {A B} (e : exn) (k : A → Run B) :
  bind (lift (inl e)) k = raise e.
Proof. done. Qed.

Lemma outcome_bind {A B} (m : Run A) (k : A → Run B) :
  outcome (bind m k) =
  match outcome m with inl e => inl e | inr a => outcome (k a) end.
Proof. by destruct m as [t [e|a]]. Qed.

Lemma trace_bind {A B} (m : Run A) (k : A → Run B) :
  trace (bind m k) =
  trace m ++ match outcome m with inl _ => [] | inr a => trace (k a) end.
Proof. destruct m as [t [e|a]]; simpl; by rewrite ?app_nil_r. Qed.

Lemma outcome_try_except {A} (body : Run A) (handler : exn → Run A) :
  outcome (try_except body handler) =
  match outcome body with inl e => outcome (handler e) | inr a => inr a end.
Proof. by destruct body as [t [e|a]]. Qed.

Lemma trace_try_except {A} (body : Run A) (handler : exn → Run A) :
  trace (try_except body handler) =
  trace body ++
  match outcome body with inl e => trace (handler e) | inr _ => [] end.
Proof. destruct body as [t [e|a]]; simpl; by rewrite ?app_nil_r. Qed.

Lemma returned_outcome {A} (m : Run A) (a : A) :
  returned m = Some a ↔ outcome m = inr a.
Proof.
  unfold returned, outcome. destruct (m.2); split; congruence.
Qed.

(** Steps over pure sub-computations whose result is known. *)
Ltac run_steps :=
  repeat match goal with
    | |- context [bind (lift (inr ?a)) ?k] =>
        first [rewrite (bind_lift_inr a k) | rewrite bind_lift_inr];
        cbv beta iota
    | |- context [bind (ret ?a) ?k] =>
        first [rewrite (bind_ret_l a k) | rewrite bind_ret_l];
        cbv beta iota
    | |- context [bind (lift (inl ?e)) ?k] =>
        rewrite (bind_lift_inl e k)
    end.

(** ** Column isolation *)

Lemma getitem_elem (df : DataFrame) (column : label) :
  column ∈ columns df → ∃ y, getitem df column = inr y.
Proof.
  unfold getitem, columns. intros Hin.
  apply list_elem_of_fmap in Hin as [s [-> Hs]].
  destruct (list_find_elem_of (λ s', s'.1 = s.1) (series df) s Hs eq_refl)
    as [[j s'] Hfind].
  rewrite Hfind. eauto.
Qed.

Lemma isolate_column_elem (df : DataFrame) (column : label) :
  column ∈ columns df → ∃ X y, isolate_column df column = inr (X, y).
Proof.
  intros Hin. unfold isolate_column, df_drop.
  destruct (getitem_elem df column Hin) as [y ->].
  rewrite decide_True by done. eauto.
Qed.

Lemma isolate_column_not_elem (df : DataFrame) (column : label) :
  column ∉ columns df → isolate_column df column = inl (KeyError column).
Proof.
  intros Hin. unfold isolate_column, df_drop. by rewrite decide_False.
Qed.

(** ** The loop over the columns *)

Section loop.
Context `{Classifier Clf}.
Variables (train test synthetic : DataFrame).
Variables (Model : unit → Clf) (score : scorer).

Abbreviation evaluate := (evaluate_column train test synthetic Model score).
Abbreviation scores := (column_scores train test synthetic Model score).
Abbreviation shared := (shared train test synthetic).

Lemma evaluate_column_outcome (i : nat) (column : label) (acc : score_lists) :
  column ∈ columns train → column ∈ columns synthetic →
  column ∈ columns test →
  outcome (evaluate (i, column) acc) = inr (appended acc (scores column)).
Proof.
  intros Htr Hsy Hte.
  unfold evaluate_column, column_scores, holdout_score. cbn [fst snd].
  destruct (isolate_column_elem _ _ Htr) as (Xr & yr & ->).
  destruct (isolate_column_elem _ _ Hsy) as (Xs & ys & ->).
  destruct (isolate_column_elem _ _ Hte) as (Xt & yt & ->).
  run_steps. rewrite outcome_try_except.
  unfold score_column. rewrite outcome_bind. unfold returned, outcome.
  destruct (get_prediction_score Xr yr Xt yt Model score) as [t1 [e1|r]];
    simpl; [done|].
  destruct (get_prediction_score Xs ys Xt yt Model score) as [t2 [e2|s]];
    simpl; done.
Qed.

Lemma evaluate_column_missing (i : nat) (column : label) (acc : score_lists) :
  column ∈ columns train → column ∈ columns synthetic →
  column ∉ columns test →
  evaluate (i, column) acc = raise (KeyError column).
Proof.
  intros Htr Hsy Hte. unfold evaluate_column. simpl.
  destruct (isolate_column_elem _ _ Htr) as (Xr & yr & ->).
  destruct (isolate_column_elem _ _ Hsy) as (Xs & ys & ->).
  rewrite (isolate_column_not_elem _ _ Hte).
  by run_steps.
Qed.

(** The iterations compose. *)
Lemma for_each_app {A S} (pre post : list A) (body : A → S → Run S) (s : S) :
  for_each (pre ++ post) body s =
  (let* s' := for_each pre body s in for_each post body s').
Proof.
  revert s. induction pre as [|x pre IH]; intros s; simpl.
  - symmetry. apply (bind_ret_l s (λ s', for_each post body s')).
  - destruct (body x s) as [t [e|s']]; simpl; [done|].
    rewrite IH. destruct (for_each pre body s') as [t' [e'|s'']]; simpl;
      [done|]. by rewrite app_assoc.
Qed.

Lemma for_each_outcome (ics : list (nat * label)) (acc : score_lists) :
  Forall (λ ic, shared ic.2) ics →
  outcome (for_each ics evaluate acc) =
  inr (acc.1 ++ (omap scores ics.*2).*1, acc.2 ++ (omap scores ics.*2).*2).
Proof.
  intros Hall. revert acc.
  induction Hall as [|[i column] ics (Htr & Hsy & Hte) _ IH]; intros acc.
  - simpl. rewrite !app_nil_r. by destruct acc.
  - cbn [for_each]. rewrite outcome_bind.
    rewrite (evaluate_column_outcome i column acc Htr Hsy Hte), IH.
    cbn [fmap list_fmap omap list_omap fst snd].
    destruct (scores column) as [[r s]|]; cbn [appended fst snd];
      [|done].
    by rewrite <- !app_assoc.
Qed.

Lemma for_each_missing (pre post : list (nat * label)) (i : nat)
    (column : label) (acc : score_lists) :
  Forall (λ ic, shared ic.2) pre →
  column ∈ columns train → column ∈ columns synthetic →
  column ∉ columns test →
  for_each (pre ++ (i, column) :: post) evaluate acc =
  (trace (for_each pre evaluate acc), inl (KeyError column)).
Proof.
  intros Hpre Htr Hsy Hte. rewrite for_each_app.
  pose proof (for_each_outcome pre acc Hpre) as Hout.
  rewrite (run_eta (for_each pre evaluate acc)), Hout.
  cbn [for_each bind fst snd trace outcome].
  rewrite (evaluate_column_missing i column _ Htr Hsy Hte).
  simpl. by rewrite app_nil_r.
Qed.
End loop.

(** ** Sums *)

Lemma enumerate_snd {A} (l : list A) : (enumerate l).*2 = l.
Proof. unfold enumerate. apply snd_zip. by rewrite length_seq. Qed.

Lemma enumerate_app {A} (l1 l2 : list A) (x : A) :
  enumerate (l1 ++ x :: l2) =
  enumerate l1 ++ (length l1, x) :: zip (seq (S (length l1)) (length l2)) l2.
Proof.
  unfold enumerate. rewrite length_app. cbn [length].
  rewrite seq_app, zip_with_app by (by rewrite length_seq).
  by rewrite Nat.add_0_l.
Qed.

Lemma fold_left_Qplus (l : list Q) (a : Q) :
  (fold_left Qplus l a == a + foldr Qplus 0 l)%Q.
Proof.
  revert a. induction l as [|x l IH]; intros a; simpl.
  - ring.
  - rewrite IH. ring.
Qed.

Lemma py_sum_foldr (l : list Q) : (py_sum l == foldr Qplus 0 l)%Q.
Proof. unfold py_sum. rewrite fold_left_Qplus. ring. Qed.

Lemma foldr_Qplus_Permutation (l k : list Q) :
  l ≡ₚ k → (foldr Qplus 0 l == foldr Qplus 0 k)%Q.
Proof.
  induction 1 as [|x l k _ IH|x y l|l k m _ IH1 _ IH2]; simpl.
  - reflexivity.
  - by rewrite IH.
  - ring.
  - by rewrite IH1.
Qed.

Lemma sq_diff_swap (r s : Q) : (sq_diff (s, r) == sq_diff (r, s))%Q.
Proof. unfold sq_diff. simpl. ring. Qed.

Lemma sq_diff_same (r : Q) : (sq_diff (r, r) == 0)%Q.
Proof. unfold sq_diff. simpl. ring. Qed.

(** The first element of a list that fails a decidable test. *)
Lemma first_failure {A} (P : A → Prop) `{∀ x, Decision (P x)} (l : list A) :
  ¬ Forall P l →
  ∃ pre x post, l = pre ++ x :: post ∧ Forall P pre ∧ ¬ P x.
Proof.
  induction l as [|a l IH]; intros Hnot.
  - by destruct Hnot.
  - destruct (decide (P a)) as [Ha|Ha].
    + destruct IH as (pre & x & post & -> & Hpre & Hx).
      { intros Hl. apply Hnot. by constructor. }
      exists (a :: pre), x, post. split_and!; [done| by constructor |done].
    + exists [], a, l. split_and!; [done| constructor |done].
Qed.

(** ** The value of the predictive-utility evaluation *)

Section evaluation.
Context `{Classifier Clf}.
Variables (train test synthetic : DataFrame).
Variables (Model : unit → Clf) (score : scorer).

Abbreviation evaluate := (evaluate_column train test synthetic Model score).
Abbreviation scores := (column_scores train test synthetic Model score).
Abbreviation fpe :=
  (feature_prediction_evaluation train test synthetic Model score).

Lemma same_columns_elem (column : label) :
  list_to_set (columns train) =@{gset label} list_to_set (columns synthetic) →
  column ∈ columns train ↔ column ∈ columns synthetic.
Proof.
  intros Heq.
  rewrite <- (elem_of_list_to_set (C := gset label) column (columns train)).
  rewrite Heq. apply elem_of_list_to_set.
Qed.

Lemma enumerate_shared (l : list label) :
  Forall (shared train test synthetic) l →
  Forall (λ ic : nat * label, shared train test synthetic ic.2) (enumerate l).
Proof.
  intros Hall.
  apply (proj1 (Forall_fmap snd (shared train test synthetic) (enumerate l))).
  by rewrite enumerate_snd.
Qed.

Lemma plot_scores_zipped (png csv : string) (ps : list (Q * Q)) :
  outcome (plot_scores png csv ps.*1 ps.*2) = inr ().
Proof.
  unfold plot_scores. rewrite decide_True; [done|].
  by rewrite !length_fmap.
Qed.

(** On tables that pass the column check and whose holdout table has
    every training column, the evaluation returns the sum of the
    squared differences of the collected pairs. *)
Lemma fpe_outcome (training_proportion : Q) (plot : bool) :
  list_to_set (columns train) =@{gset label} list_to_set (columns synthetic) →
  columns train ⊆ columns test →
  outcome (fpe training_proportion plot) =
  inr (py_sum (sq_diff <$> omap scores (columns train))).
Proof.
  intros Heq Hsub. unfold feature_prediction_evaluation.
  rewrite decide_False by (by intros []).
  rewrite outcome_bind, for_each_outcome, enumerate_snd.
  - cbn [fst snd app]. rewrite outcome_bind.
    destruct plot.
    + by rewrite plot_scores_zipped, zip_fst_snd.
    + by rewrite zip_fst_snd.
  - apply enumerate_shared, Forall_forall. intros c Hc.
    split_and!; [done| by apply same_columns_elem | by apply Hsub].
Qed.

(** A training column that the holdout table lacks ends the evaluation
    with the [KeyError] of the first such column. *)
Lemma fpe_missing (training_proportion : Q) (plot : bool) :
  list_to_set (columns train) =@{gset label} list_to_set (columns synthetic) →
  ¬ (columns train ⊆ columns test) →
  ∃ pre column post,
    columns train = pre ++ column :: post ∧
    pre ⊆ columns test ∧ (column ∉ columns test) ∧
    (fpe training_proportion plot =
     (trace (for_each (enumerate pre) evaluate ([], [])),
      inl (KeyError column))).
Proof.
  intros Heq Hsub.
  destruct (first_failure (λ c, c ∈ columns test) (columns train))
    as (pre & column & post & Hsplit & Hpre & Hcol).
  { intros Hall. apply Hsub. intros c Hc.
    by apply (proj1 (Forall_forall _ _) Hall). }
  exists pre, column, post. split_and!; [done| |done|].
  { intros c Hc. by apply (proj1 (Forall_forall _ _) Hpre). }
  assert (∀ c, c ∈ pre ++ column :: post → c ∈ columns train) as Hin
    by (intros c; by rewrite Hsplit).
  unfold feature_prediction_evaluation.
  rewrite decide_False by (by intros []).
  rewrite Hsplit, enumerate_app, for_each_missing; [done| | | |done].
  - apply enumerate_shared, Forall_forall. intros c Hc.
    assert (c ∈ columns train) by (apply Hin, elem_of_app; by left).
    split_and!; [done| by apply same_columns_elem |].
    by apply (proj1 (Forall_forall _ _) Hpre).
  - apply Hin, elem_of_app. right. apply elem_of_cons. by left.
  - apply same_columns_elem; [done|].
    apply Hin, elem_of_app. right. apply elem_of_cons. by left.
Qed.
End evaluation.

(** ** The per-column score *)

Lemma insert_count_nonempty (x : Q) (l : list (Q * nat)) : insert_count x l ≠ [].
Proof.
  destruct l as [|[v n] l]; simpl; [done|]. by destruct (x ?= v)%Q.
Qed.

Lemma np_unique_length_0 (a : vec) : length (np_unique a) = 0%nat ↔ a = [].
Proof.
  unfold np_unique, np_unique_counts. destruct a as [|x a]; simpl; [done|].
  pose proof (insert_count_nonempty x (foldr insert_count [] a)) as Hne.
  destruct (insert_count x (foldr insert_count [] a)); [done|].
  split; discriminate.
Qed.

Section score.
Context `{Classifier Clf}.
Variables (Model : unit → Clf) (score : scorer).

Lemma get_prediction_score_empty (X_train : ndarray2) (y_train : vec)
    (X_test : ndarray2) (y_test : vec) :
  y_train = [] ∨ y_test = [] →
  get_prediction_score X_train y_train X_test y_test Model score =
  raise (RuntimeError "No active exception to reraise").
Proof.
  intros Hempty. unfold get_prediction_score.
  destruct Hempty as [-> | ->]; simpl; [done|].
  by rewrite orb_true_r.
Qed.

Lemma get_prediction_score_nonempty (X_train : ndarray2) (y_train : vec)
    (X_test : ndarray2) (y_test : vec) :
  y_train ≠ [] → y_test ≠ [] →
  get_prediction_score X_train y_train X_test y_test Model score =
  (let* prediction :=
     try_except (fit_and_predict (Model ()) X_train y_train X_test)
                (λ _, constant_prediction y_train y_test) in
   call_score score y_test prediction).
Proof.
  intros Htrain Htest. unfold get_prediction_score.
  destruct (Nat.eqb_spec (length (np_unique y_train)) 0) as [E|_].
  { by apply np_unique_length_0 in E. }
  destruct (Nat.eqb_spec (length (np_unique y_test)) 0) as [E|_].
  { by apply np_unique_length_0 in E. }
  done.
Qed.

(** A returned score is the scorer's value on the holdout labels. *)
Lemma get_prediction_score_returned (X_train : ndarray2) (y_train : vec)
    (X_test : ndarray2) (y_test : vec) (v : Q) :
  returned (get_prediction_score X_train y_train X_test y_test Model score)
    = Some v →
  ∃ prediction, score y_test prediction = inr v.
Proof.
  destruct (decide (y_train = [])) as [->|Htrain]; [done|].
  destruct (decide (y_test = [])) as [->|Htest].
  { by rewrite get_prediction_score_empty by by right. }
  rewrite get_prediction_score_nonempty by done.
  rewrite returned_outcome, outcome_bind.
  destruct (outcome (try_except _ _)) as [e|prediction]; [done|].
  unfold call_score. rewrite outcome_bind. simpl. eauto.
Qed.

(** The [try] block raises exactly when [fit] raises, or
    [predict_proba] raises, or its result has no column of index 1. *)
Lemma fit_and_predict_raises (clf : Clf) (X_train : ndarray2) (y_train : vec)
    (X_test : ndarray2) (e : exn) :
  outcome (fit_and_predict clf X_train y_train X_test) = inl e ↔
  fit clf X_train y_train = inl e ∨
  ∃ fitted, fit clf X_train y_train = inr fitted ∧
    (predict_proba fitted X_test = inl e ∨
     ∃ P, predict_proba fitted X_test = inr P ∧ column1 P = inl e).
Proof.
  unfold fit_and_predict, call_fit, call_predict_proba, outcome, bind,
    emit, lift.
  simpl.
  destruct (fit clf X_train y_train) as [e1|fitted]; simpl.
  - split; [intros [= ->]; by left|].
    intros [[= ->]|(? & [=] & _)]. done.
  - destruct (predict_proba fitted X_test) as [e2|P] eqn:Hpred; simpl.
    + split.
      * intros [= ->]. right. exists fitted. split; [done|]. by left.
      * intros [[=]|(f & [= <-] & [Hp|(P & Hp & _)])]; congruence.
    + split.
      * intros Hcol. right. exists fitted. split; [done|]. right. eauto.
      * intros [[=]|(f & [= <-] & [Hp|(P' & Hp & Hcol)])]; congruence.
Qed.
End score.

(** ** Swapping the training tables *)

Lemma returned_inr {A} (m : Run A) (a : A) :
  outcome m = inr a → returned m = Some a.
Proof. apply returned_outcome. Qed.

Lemma returned_inl {A} (m : Run A) (e : exn) :
  outcome m = inl e → returned m = None.
Proof. unfold returned, outcome. by intros ->. Qed.

Lemma column_scores_swap `{Classifier Clf} (train test synthetic : DataFrame)
    (Model : unit → Clf) (score : scorer) (column : label) :
  column_scores synthetic test train Model score column =
  prod_swap <$> column_scores train test synthetic Model score column.
Proof.
  unfold column_scores.
  destruct (holdout_score test Model score train column),
    (holdout_score test Model score synthetic column); done.
Qed.

Lemma sum_sq_diff_swap {A} (f g : A → option (Q * Q)) (l : list A) :
  (∀ x, g x = prod_swap <$> f x) →
  (foldr Qplus 0 (sq_diff <$> omap g l) ==
   foldr Qplus 0 (sq_diff <$> omap f l))%Q.
Proof.
  intros Hswap. induction l as [|x l IH]; simpl; [reflexivity|].
  rewrite Hswap. destruct (f x) as [[r s]|]; simpl; [|done].
  by rewrite IH, sq_diff_swap.
Qed.

Lemma sum_sq_diff_same {A} (f : A → option (Q * Q)) (l : list A) :
  (∀ x p, f x = Some p → p.1 = p.2) →
  (foldr Qplus 0 (sq_diff <$> omap f l) == 0)%Q.
Proof.
  intros Hsame. induction l as [|x l IH]; simpl; [reflexivity|].
  destruct (f x) as [[r s]|] eqn:Hx; simpl; [|done].
  apply Hsame in Hx. simpl in Hx. subst s.
  rewrite IH, sq_diff_same. ring.
Qed.

Lemma sum_sq_diff_Permutation {A} (f : A → option (Q * Q)) (l k : list A) :
  l ≡ₚ k →
  (foldr Qplus 0 (sq_diff <$> omap f l) ==
   foldr Qplus 0 (sq_diff <$> omap f k))%Q.
Proof.
  intros Hperm. apply foldr_Qplus_Permutation.
  by apply fmap_Permutation, omap_Permutation.
Qed.

(** ** One iteration *)

Section iteration.
Context `{Classifier Clf}.
Variables (train test synthetic : DataFrame).
Variables (Model : unit → Clf) (score : scorer).

Abbreviation evaluate := (evaluate_column train test synthetic Model score).

(** The [try] block either appends one score to each list or raises. *)
Lemma score_column_returns (i : nat) (acc acc' : score_lists)
    (Xr : ndarray2) (yr : vec) (Xs : ndarray2) (ys : vec)
    (Xt : ndarray2) (yt : vec) :
  outcome (score_column Model score i acc Xr yr Xs ys Xt yt) = inr acc' →
  ∃ r s, acc' = (acc.1 ++ [r], acc.2 ++ [s]).
Proof.
  unfold score_column. rewrite outcome_bind.
  destruct (outcome (get_prediction_score Xr yr Xt yt Model score))
    as [?|r]; [done|].
  rewrite outcome_bind.
  destruct (outcome (get_prediction_score Xs ys Xt yt Model score))
    as [?|s]; [done|].
  rewrite outcome_bind. simpl. intros [= <-]. eauto.
Qed.

(** An iteration that completes appends to both lists or to neither. *)
Lemma evaluate_column_step (ic : nat * label) (acc acc' : score_lists) :
  outcome (evaluate ic acc) = inr acc' →
  acc' = acc ∨ ∃ r s, acc' = (acc.1 ++ [r], acc.2 ++ [s]).
Proof.
  unfold evaluate_column.
  destruct (isolate_column train ic.2) as [?|[Xr yr]]; [done|].
  destruct (isolate_column synthetic ic.2) as [?|[Xs ys]]; [done|].
  destruct (isolate_column test ic.2) as [?|[Xt yt]]; [done|].
  run_steps. rewrite outcome_try_except.
  destruct (outcome (score_column _ _ _ _ _ _ _ _ _ _)) as [e|acc'']
    eqn:Hbody.
  - simpl. intros [= <-]. by left.
  - intros [= <-]. right. by eapply score_column_returns.
Qed.

Lemma for_each_aligned (ics : list (nat * label)) (acc acc' : score_lists) :
  length acc.1 = length acc.2 →
  outcome (for_each ics evaluate acc) = inr acc' →
  length acc'.1 = length acc'.2.
Proof.
  revert acc. induction ics as [|ic ics IH]; intros acc Hacc; simpl.
  - by intros [= <-].
  - rewrite outcome_bind.
    destruct (outcome (evaluate ic acc)) as [?|acc1] eqn:Hstep; [done|].
    apply IH.
    destruct (evaluate_column_step _ _ _ Hstep) as [->|(r & s & ->)];
      [done|].
    simpl. rewrite !length_app. simpl. lia.
Qed.
End iteration.

(** ** The claims about the predictive-utility evaluation *)

Section claims.
Context `{Classifier Clf}.
Variables (train test synthetic : DataFrame).
Variables (Model : unit → Clf) (score : scorer).
Variables (training_proportion : Q) (plot : bool).


(** C7.  On tables with pairwise distinct column labels, exchanging the
    real training table and the synthetic table, with the same holdout
    table, model factory and scorer, leaves the returned aggregate
    unchanged: either both calls raise, or both return and the two values
    are equal. *)
Theorem swapping_train_and_synthetic_keeps_aggregate :
  NoDup (columns train) → NoDup (columns synthetic) →
  option_Forall2 Qeq
    (returned (feature_prediction_evaluation train test synthetic
                 Model score training_proportion plot))
    (returned (feature_prediction_evaluation synthetic test train
                 Model score training_proportion plot)).
Proof.
  intros Htrain Hsynthetic.
  destruct (decide (list_to_set (columns train) =@{gset label}
                    list_to_set (columns synthetic))) as [Heq|Hne].
  - pose proof (λ c, same_columns_elem train synthetic c Heq) as Hiff.
    destruct (decide (columns train ⊆ columns test)) as [Hsub|Hsub].
    + assert (columns synthetic ⊆ columns test) as Hsub'.
      { intros c Hc. by apply Hsub, Hiff. }
      rewrite (returned_inr _ _ (fpe_outcome _ _ _ _ _ _ _ Heq Hsub)).
      rewrite (returned_inr _ _
                 (fpe_outcome _ _ _ _ _ _ _ (eq_sym Heq) Hsub')).
      constructor. rewrite !py_sum_foldr.
      rewrite (sum_sq_diff_Permutation _ (columns synthetic) (columns train))
        by (apply NoDup_Permutation; [done..|]; intros c; by rewrite Hiff).
      symmetry. apply sum_sq_diff_swap. intros c.
      apply column_scores_swap.
    + assert (¬ (columns synthetic ⊆ columns test)) as Hsub'.
      { intros Hs. apply Hsub. intros c Hc. by apply Hs, Hiff. }
      destruct (fpe_missing train test synthetic Model score
                  training_proportion plot Heq Hsub)
        as (? & ? & ? & _ & _ & _ & ->).
      destruct (fpe_missing synthetic test train Model score
                  training_proportion plot (eq_sym Heq) Hsub')
        as (? & ? & ? & _ & _ & _ & ->).
      constructor.
  - unfold feature_prediction_evaluation.
    rewrite !decide_True by done. constructor.
Qed.

(** C5.  When the synthetic table is the real training table itself, the
    evaluation returns 0: every column that is scored gets the same score
    twice (the model factory and the scorer are functions, hence
    deterministic), so every squared difference is 0.  The call returns
    whenever the holdout table has the training columns, as the data model
    requires, and whenever it returns the value is 0. *)
Theorem identical_tables_give_zero :
  (columns train ⊆ columns test →
   is_Some (returned
     (feature_prediction_evaluation train test train Model score
        training_proportion plot))) ∧
  (∀ v,
   returned (feature_prediction_evaluation train test train Model score
               training_proportion plot) = Some v →
   (v == 0)%Q) ∧
  (∀ column real_score synthetic_score,
   column_scores train test train Model score column =
     Some (real_score, synthetic_score) →
   real_score = synthetic_score).
Proof.
  split_and!.
  - intros Hsub. eexists. apply returned_inr. by apply fpe_outcome.
  - intros v Hv.
    destruct (decide (columns train ⊆ columns test)) as [Hsub|Hsub].
    + apply returned_outcome in Hv.
      rewrite (fpe_outcome _ _ _ _ _ _ _ eq_refl Hsub) in Hv.
      injection Hv as <-.
      rewrite py_sum_foldr. apply sum_sq_diff_same.
      intros column [r s]. unfold column_scores.
      destruct (holdout_score test Model score train column); [|done].
      by intros [= -> ->].
    + destruct (fpe_missing train test train Model score
                  training_proportion plot eq_refl Hsub)
        as (pre & c & post & _ & _ & _ & Hrun).
      by rewrite Hrun in Hv.
  - intros column r s. unfold column_scores.
    destruct (holdout_score test Model score train column); [|done].
    by intros [= -> ->].
Qed.

(** C8.  The training proportion is not used: two calls that differ in
    it alone perform the same effects (the printed scores, and the plotted
    and saved score lists) and end in the same result. *)
Theorem training_proportion_is_unused (proportion1 proportion2 : Q) :
  feature_prediction_evaluation train test synthetic Model score
    proportion1 plot =
  feature_prediction_evaluation train test synthetic Model score
    proportion2 plot.
Proof. reflexivity. Qed.

(** C9.  When the holdout table lacks a column that the real training
    table and the synthetic table both have, the evaluation returns no
    value.  When the two training tables pass the column check, which
    does not look at the holdout table, the loop runs up to the first
    training column that the holdout table lacks, and the [KeyError] of
    isolating that column in the holdout table ends the call: it is not
    caught by the handler of the loop body. *)
Theorem missing_holdout_column_aborts (column : label) :
  column ∈ columns train → column ∈ columns synthetic →
  column ∉ columns test →
  returned (feature_prediction_evaluation train test synthetic Model score
              training_proportion plot) = None ∧
  (list_to_set (columns train) =@{gset label}
     list_to_set (columns synthetic) →
   ∃ pre missing post,
     columns train = pre ++ missing :: post ∧
     pre ⊆ columns test ∧ (missing ∉ columns test) ∧
     (feature_prediction_evaluation train test synthetic Model score
        training_proportion plot =
      (trace (for_each (enumerate pre)
                (evaluate_column train test synthetic Model score)
                ([], [])),
       inl (KeyError missing)))).
Proof.
  intros Htr Hsy Hte.
  assert (¬ (columns train ⊆ columns test)) as Hsub.
  { intros Hsub. by apply Hte, Hsub. }
  split.
  - destruct (decide (list_to_set (columns train) =@{gset label}
                      list_to_set (columns synthetic))) as [Heq|Hne].
    + destruct (fpe_missing train test synthetic Model score
                  training_proportion plot Heq Hsub)
        as (? & ? & ? & _ & _ & _ & ->). done.
    + unfold feature_prediction_evaluation. by rewrite decide_True.
  - intros Heq. by apply fpe_missing.
Qed.

(** C10.  After any number of iterations of the loop, the list of real
    scores and the list of synthetic scores have the same length, each
    further iteration that completes appends one score to both lists or
    leaves both as they are, and zipping them drops no score. *)
Theorem score_lists_stay_aligned (done_so_far : list (nat * label))
    (acc : score_lists) :
  done_so_far `prefix_of` enumerate (columns train) →
  outcome (for_each done_so_far
             (evaluate_column train test synthetic Model score) ([], []))
    = inr acc →
  length acc.1 = length acc.2 ∧
  length (zip acc.1 acc.2) = length acc.1 ∧
  (∀ ic acc',
     outcome (evaluate_column train test synthetic Model score ic acc)
       = inr acc' →
     acc' = acc ∨ ∃ r s, acc' = (acc.1 ++ [r], acc.2 ++ [s])).
Proof.
  intros _ Hrun.
  assert (length acc.1 = length acc.2) as Hlen.
  { by eapply for_each_aligned, Hrun. }
  split_and!; [done| |].
  - rewrite length_zip_with. lia.
  - intros ic acc'. apply evaluate_column_step.
Qed.


(** C4 (amended).  When the [try] block of the per-column score raises,
    whether in [fit], in [predict_proba] or in taking the column of index
    1 (as it does for a model that refuses, or gives one column of
    probabilities for, training labels of one class), the exception is not
    propagated: the prediction is the constant vector that has the length
    of the holdout labels and repeats the first training label, and the
    result is whatever the scorer gives on that vector.  Training labels of
    one class alone do not bring the fallback: it takes an exception. *)
Theorem fit_failure_falls_back_to_constant
    (X_train : ndarray2) (y_train : vec) (X_test : ndarray2) (y_test : vec)
    (e : exn) :
  y_train ≠ [] → y_test ≠ [] →
  outcome (fit_and_predict (Model ()) X_train y_train X_test) = inl e →
  ∃ y0 prediction,
    head y_train = Some y0 ∧
    prediction = np_full (length y_test) y0 ∧
    length prediction = length y_test ∧
    Forall (eq y0) prediction ∧
    get_prediction_score X_train y_train X_test y_test Model score =
      (trace (fit_and_predict (Model ()) X_train y_train X_test)
         ++ [Call_score y_test prediction],
       score y_test prediction).
Proof.
  intros Htrain Htest Hfail.
  destruct y_train as [|y0 y_train]; [done|].
  exists y0, (np_full (length y_test) y0). split_and!; [done..| | |].
  - apply length_replicate.
  - apply Forall_replicate. done.
  - rewrite get_prediction_score_nonempty by done.
    rewrite (run_eta (try_except _ _)).
    rewrite trace_try_except, outcome_try_except, Hfail.
    unfold constant_prediction. cbn [item0]. run_steps.
    unfold call_score, bind, emit, lift, ret, trace, outcome. simpl.
    by rewrite !app_nil_r.
Qed.

(** C1 (amended).  When the column sets of the real training table and
    of the synthetic table differ, the predictive-utility evaluation
    raises the column exception at once: nothing is printed and no model
    is fitted, asked for a prediction or scored, whatever the holdout
    table, the model factory and the scorer are.  The
    marginal-probability evaluation does the same for its two tables.
    The columns of the holdout table are not part of the check. *)
Theorem column_check_raises_before_any_work :
  list_to_set (columns train) ≠@{gset label}
    list_to_set (columns synthetic) →
  feature_prediction_evaluation train test synthetic Model score
    training_proportion plot =
    ([], inl (Exception "Columns of given datasets are not identical.")) ∧
  feature_probabilities_evaluation train synthetic plot =
    ([], inl (Exception "Columns of given datasets are not identical.")).
Proof.
  intros Hne.
  unfold feature_prediction_evaluation, feature_probabilities_evaluation.
  by rewrite !decide_True.
Qed.
End claims.

(** ** Counts of distinct values *)

Lemma Qeq_bool_proper (x y v : Q) : (x == y)%Q → Qeq_bool x v = Qeq_bool y v.
Proof.
  intros Hxy.
  destruct (Qeq_bool x v) eqn:Hx, (Qeq_bool y v) eqn:Hy; try done.
  - apply Qeq_bool_iff in Hx. apply Qeq_bool_neq in Hy.
    destruct Hy. by rewrite <- Hxy.
  - apply Qeq_bool_iff in Hy. apply Qeq_bool_neq in Hx.
    destruct Hx. by rewrite Hxy.
Qed.

Lemma counted_cons (v : Q) (p : Q * nat) (l : list (Q * nat)) :
  counted v (p :: l) =
  ((if Qeq_bool p.1 v then p.2 else 0) + counted v l)%nat.
Proof.
  unfold counted.
  rewrite (filter_cons (λ q : Q * nat, Qeq_bool q.1 v = true) p l).
  destruct (Qeq_bool p.1 v); by case_decide.
Qed.

Lemma count_value_cons (v x : Q) (a : vec) :
  count_value v (x :: a) =
  ((if Qeq_bool x v then 1 else 0) + count_value v a)%nat.
Proof.
  unfold count_value.
  rewrite (filter_cons (λ y : Q, Qeq_bool y v = true) x a).
  destruct (Qeq_bool x v); by case_decide.
Qed.

(** Inserting a cell adds one to the total of its value and to no other. *)
Lemma counted_insert_count (v x : Q) (l : list (Q * nat)) :
  counted v (insert_count x l) =
  ((if Qeq_bool x v then 1 else 0) + counted v l)%nat.
Proof.
  induction l as [|[w n] l IH]; simpl.
  - by rewrite counted_cons.
  - destruct (Qcompare_spec x w) as [Heq|Hlt|Hgt].
    + rewrite !counted_cons. simpl.
      rewrite (Qeq_bool_proper x w v Heq). destruct (Qeq_bool w v); lia.
    + by rewrite !counted_cons.
    + rewrite !counted_cons, IH. simpl. lia.
Qed.

Lemma counted_np_unique_counts (v : Q) (a : vec) :
  counted v (np_unique_counts a) = count_value v a.
Proof.
  induction a as [|x a IH]; [done|].
  unfold np_unique_counts in *. simpl.
  by rewrite counted_insert_count, count_value_cons, IH.
Qed.

(** The table of counts is sorted by value, strictly. *)
Lemma insert_count_values (x : Q) (l : list (Q * nat)) (P : Q → Prop) :
  P x → Forall (λ p, P p.1) l → Forall (λ p, P p.1) (insert_count x l).
Proof.
  intros Hx. induction 1 as [|[w n] l Hw Hl IH]; simpl.
  - by repeat constructor.
  - destruct (x ?= w)%Q; repeat constructor; done.
Qed.

Lemma insert_count_sorted (x : Q) (l : list (Q * nat)) :
  StronglySorted value_lt l → StronglySorted value_lt (insert_count x l).
Proof.
  induction 1 as [|[w n] l Hsorted IH Hall]; simpl.
  - by repeat constructor.
  - destruct (Qcompare_spec x w) as [Heq|Hlt|Hgt].
    + constructor; [done|]. done.
    + constructor; [by constructor|].
      constructor; [done|].
      eapply Forall_impl; [exact Hall|].
      intros p Hp. unfold value_lt in *. simpl in *.
      by eapply Qlt_trans.
    + constructor; [done|].
      by apply (insert_count_values x l (λ k, (w < k)%Q)).
Qed.

Lemma np_unique_counts_sorted (a : vec) :
  StronglySorted value_lt (np_unique_counts a).
Proof.
  induction a as [|x a IH]; [constructor|].
  by apply insert_count_sorted.
Qed.

Lemma counted_above (v : Q) (l : list (Q * nat)) :
  Forall (λ q, (v < q.1)%Q) l → counted v l = 0%nat.
Proof.
  induction 1 as [|p l Hp _ IH]; [done|].
  rewrite counted_cons, IH.
  destruct (Qeq_bool p.1 v) eqn:Heq; [|done].
  apply Qeq_bool_iff in Heq. apply Qlt_not_eq in Hp.
  destruct Hp. by symmetry.
Qed.

(** In a sorted table the total of a listed value is its own entry. *)
Lemma sorted_lookup_counted (l : list (Q * nat)) (i : nat) (v : Q) (n : nat) :
  StronglySorted value_lt l → l !! i = Some (v, n) → counted v l = n.
Proof.
  intros Hsorted. revert i.
  induction Hsorted as [|[w m] l _ IH Hall]; intros i Hi; [done|].
  rewrite counted_cons. destruct i as [|i]; simpl in *.
  - injection Hi as -> ->.
    rewrite (counted_above v l Hall).
    rewrite (proj2 (Qeq_bool_iff v v)) by reflexivity. lia.
  - rewrite (IH i Hi).
    assert (value_lt (w, m) (v, n)) as Hlt.
    { eapply (proj1 (Forall_forall _ _) Hall), list_elem_of_lookup_2, Hi. }
    destruct (Qeq_bool w v) eqn:Heq; [|done].
    apply Qeq_bool_iff in Heq. by apply Qlt_not_eq in Hlt.
Qed.

(** Every entry of [np.unique(a, return_counts=True)] holds the number of
    cells of [a] equal to its value. *)
Lemma np_unique_counts_lookup (a : vec) (i : nat) (v : Q) (n : nat) :
  np_unique_counts a !! i = Some (v, n) → n = count_value v a.
Proof.
  intros Hi. rewrite <- counted_np_unique_counts.
  symmetry. by eapply sorted_lookup_counted, Hi; apply np_unique_counts_sorted.
Qed.

(** ** The marginal-probability evaluation on columns that have rows *)

Lemma sq_diff_proper (a a' b b' : Q) :
  (a == a')%Q → (b == b')%Q → (sq_diff (a, b) == sq_diff (a', b'))%Q.
Proof. intros Ha Hb. unfold sq_diff. simpl. by rewrite Ha, Hb. Qed.

Lemma index1_probability_share (a : vec) :
  a ≠ [] →
  ∃ p, index1_probability (np_unique_counts a).*2 (length a) = inr p ∧
       (p == second_value_share a)%Q.
Proof.
  intros Ha.
  assert (length a ≠ 0%nat) as Hlen by (by destruct a).
  unfold index1_probability, second_value_share, np_unique, py_truediv.
  rewrite length_fmap.
  pose proof (np_unique_counts_lookup a 1) as Hcount.
  destruct (np_unique_counts a) as [|[v0 n0] [|[v1 n1] l]]; simpl.
  - rewrite decide_False by done. eexists. split; [done|].
    unfold Qdiv. simpl. ring.
  - rewrite decide_False by done. eexists. split; [done|].
    unfold Qdiv. simpl. ring.
  - rewrite decide_False by done. eexists. split; [done|].
    by rewrite (Hcount v1 n1 eq_refl).
Qed.

Lemma cells_getitem (df : DataFrame) (column : label) :
  cells df column ≠ [] → getitem df column = inr (cells df column).
Proof. unfold cells. by destruct (getitem df column). Qed.

Section probabilities.
Variables (real synthetic : DataFrame).

Abbreviation share_of df := (λ column, second_value_share (cells df column)).

Lemma column_probabilities_outcome (column : label) (props : score_lists) :
  cells real column ≠ [] → cells synthetic column ≠ [] →
  ∃ p_real p_synthetic,
    column_probabilities real synthetic column props =
      ret (props.1 ++ [p_real], props.2 ++ [p_synthetic]) ∧
    (p_real == share_of real column)%Q ∧
    (p_synthetic == share_of synthetic column)%Q.
Proof.
  intros Hreal Hsynthetic. unfold column_probabilities.
  destruct (index1_probability_share _ Hreal) as (pr & Hreal' & Hpr).
  destruct (index1_probability_share _ Hsynthetic) as (ps & Hsynthetic' & Hps).
  rewrite (cells_getitem _ _ Hreal). run_steps.
  rewrite (cells_getitem _ _ Hsynthetic). run_steps.
  cbv zeta. rewrite Hreal'. run_steps. rewrite Hsynthetic'. run_steps.
  by exists pr, ps.
Qed.

Lemma for_each_column_probabilities (cols : list label) (props : score_lists) :
  Forall (λ c, cells real c ≠ [] ∧ cells synthetic c ≠ []) cols →
  ∃ ps_real ps_synthetic,
    for_each cols (column_probabilities real synthetic) props =
      ret (props.1 ++ ps_real, props.2 ++ ps_synthetic) ∧
    Forall2 Qeq ps_real (share_of real <$> cols) ∧
    Forall2 Qeq ps_synthetic (share_of synthetic <$> cols).
Proof.
  intros Hall. revert props.
  induction Hall as [|c cols [Hreal Hsynthetic] _ IH]; intros props.
  - exists [], []. simpl. rewrite !app_nil_r. by destruct props.
  - destruct (column_probabilities_outcome c props Hreal Hsynthetic)
      as (pr & ps & Hstep & Hpr & Hps).
    destruct (IH (props.1 ++ [pr], props.2 ++ [ps]))
      as (prs & pss & Hrest & Hprs & Hpss).
    exists (pr :: prs), (ps :: pss). split_and!.
    + cbn [for_each]. rewrite Hstep. run_steps. rewrite Hrest.
      cbn [fst snd]. by rewrite <- !app_assoc.
    + by constructor.
    + by constructor.
Qed.

Lemma sum_sq_diff_Forall2 (cols : list label) (f g : label → Q)
    (xs ys : list Q) :
  Forall2 Qeq xs (f <$> cols) → Forall2 Qeq ys (g <$> cols) →
  (foldr Qplus 0 (sq_diff <$> zip xs ys) ==
   foldr Qplus 0 ((λ c, sq_diff (f c, g c)) <$> cols))%Q.
Proof.
  revert xs ys. induction cols as [|c cols IH]; intros xs ys Hxs Hys.
  - apply Forall2_nil_inv_r in Hxs as ->. simpl. reflexivity.
  - apply Forall2_cons_inv_r in Hxs as (x & xs' & Hx & Hxs & ->).
    apply Forall2_cons_inv_r in Hys as (y & ys' & Hy & Hys & ->).
    simpl. by rewrite (IH xs' ys' Hxs Hys), (sq_diff_proper _ _ _ _ Hx Hy).
Qed.

(** On tables with the same column set, every column of which has at least
    one row, the evaluation returns the described sum. *)
Lemma marginal_probabilities_on_columns_with_rows (plot : bool) :
  list_to_set (columns real) =@{gset label} list_to_set (columns synthetic) →
  Forall (λ c, cells real c ≠ [] ∧ cells synthetic c ≠ []) (columns real) →
  ∃ v,
    returned (feature_probabilities_evaluation real synthetic plot) = Some v ∧
    (v == sum_of_share_differences real synthetic)%Q.
Proof.
  intros Heq Hrows. unfold feature_probabilities_evaluation.
  rewrite decide_False by (by intros []).
  destruct (for_each_column_probabilities (columns real) ([], []) Hrows)
    as (prs & pss & -> & Hprs & Hpss).
  run_steps. cbn [fst snd app].
  assert (outcome (if plot
                   then plot_scores "dw-prob.png" "dw-prob.csv" prs pss
                   else ret ()) = inr ()) as Hplot.
  { destruct plot; [|done]. unfold plot_scores.
    rewrite decide_True; [done|].
    apply Forall2_length in Hprs, Hpss.
    rewrite length_fmap in Hprs, Hpss. congruence. }
  eexists. split.
  - apply returned_inr. rewrite outcome_bind, Hplot. done.
  - rewrite py_sum_foldr. by apply sum_sq_diff_Forall2.
Qed.
End probabilities.

(** ** The evaluations on concrete tables *)

(** Decides a closed proposition by evaluation. *)
Ltac by_evaluation :=
  lazymatch goal with
  | |- ?P => apply (bool_decide_unpack P); vm_compute; exact I
  end.

(** C1 (as stated, refuted).  A holdout table whose column set differs from
    that of the two training tables is not detected: with a further column
    in the holdout table the evaluation raises nothing and returns a
    value. *)
Lemma holdout_columns_are_not_checked :
  ¬ (∀ train test synthetic : DataFrame,
       ¬ (list_to_set (columns train) =@{gset label}
            list_to_set (columns synthetic) ∧
          list_to_set (columns train) =@{gset label}
            list_to_set (columns test)) →
       returned (feature_prediction_evaluation train test synthetic
                   Demo.Model Demo.accuracy (4 # 5) false) = None).
Proof.
  intros Hclaim.
  specialize (Hclaim Demo.real_train Demo.wide_test Demo.real_train).
  assert (returned (feature_prediction_evaluation Demo.real_train
            Demo.wide_test Demo.real_train Demo.Model Demo.accuracy
            (4 # 5) false) ≠ None) as Hret by (by vm_compute).
  assert (list_to_set (columns Demo.real_train) ≠@{gset label}
          list_to_set (columns Demo.wide_test)) as Hne by by_evaluation.
  apply Hret, Hclaim. by intros [_ Heq].
Qed.

(** The marginal probabilities of the example tables: in both, half of
    the cells of A and three quarters of the cells of B hold the second
    value. *)
Lemma marginal_probabilities_of_example_tables :
  ∃ v,
    returned (feature_probabilities_evaluation Demo.real_train Demo.generated
                true) = Some v ∧
    (v == sum_of_share_differences Demo.real_train Demo.generated)%Q ∧
    (v == 0)%Q.
Proof.
  destruct (marginal_probabilities_on_columns_with_rows Demo.real_train
              Demo.generated true) as (v & Hv & Hsum).
  { by_evaluation. }
  { repeat constructor; by vm_compute. }
  exists v. split_and!; [done..|].
  revert Hv. vm_compute. by intros [= <-].
Qed.

(** C6 (failing input).  On a table that has a column and no row, the
    marginal-probability evaluation divides 0 by 0 and raises, where the
    stated behaviour is probability 0 for that column.  On columns that
    have rows the evaluation is as stated
    ([marginal_probabilities_on_columns_with_rows]). *)
Theorem probabilities_of_empty_column_raise :
  feature_probabilities_evaluation Demo.no_rows Demo.no_rows false =
  ([], inl (ZeroDivisionError "division by zero")).
Proof. reflexivity. Qed.

(** *** Worked instances *)


Lemma swapping_train_and_synthetic_keeps_aggregate_witness :
  NoDup (columns Demo.real_train) ∧ NoDup (columns Demo.generated) ∧
  option_Forall2 Qeq
    (returned (feature_prediction_evaluation Demo.real_train Demo.real_test
                 Demo.generated Demo.Model Demo.accuracy (4 # 5) false))
    (returned (feature_prediction_evaluation Demo.generated Demo.real_test
                 Demo.real_train Demo.Model Demo.accuracy (4 # 5) false)).
Proof.
  assert (NoDup (columns Demo.real_train)) as Htrain by by_evaluation.
  assert (NoDup (columns Demo.generated)) as Hgenerated by by_evaluation.
  split_and!; [done..|].
  by apply swapping_train_and_synthetic_keeps_aggregate.
Defined.

Lemma identical_tables_give_zero_witness :
  columns Demo.real_train ⊆ columns Demo.real_test ∧
  ∃ v,
    returned (feature_prediction_evaluation Demo.real_train Demo.real_test
                Demo.real_train Demo.Model Demo.accuracy (4 # 5) false)
      = Some v ∧
    (v == 0)%Q.
Proof.
  assert (columns Demo.real_train ⊆ columns Demo.real_test) as Hsub
    by by_evaluation.
  split; [done|].
  destruct (identical_tables_give_zero Demo.real_train Demo.real_test
              Demo.Model Demo.accuracy (4 # 5) false)
    as (Hret & Hzero & _).
  destruct (Hret Hsub) as [v Hv].
  exists v. split; [done|]. by apply Hzero.
Defined.

Lemma missing_holdout_column_aborts_witness :
  ("B" ∈ columns Demo.real_train ∧ "B" ∈ columns Demo.generated ∧
   "B" ∉ columns Demo.narrow_test) ∧
  returned (feature_prediction_evaluation Demo.real_train Demo.narrow_test
              Demo.generated Demo.Model Demo.accuracy (4 # 5) false) = None.
Proof.
  assert ("B" ∈ columns Demo.real_train) as Htrain by by_evaluation.
  assert ("B" ∈ columns Demo.generated) as Hgenerated by by_evaluation.
  assert ("B" ∉ columns Demo.narrow_test) as Htest by by_evaluation.
  split; [done|].
  apply (missing_holdout_column_aborts Demo.real_train Demo.narrow_test
           Demo.generated Demo.Model Demo.accuracy (4 # 5) false "B");
    done.
Defined.

Lemma score_lists_stay_aligned_witness :
  [(0%nat, "A")] `prefix_of` enumerate (columns Demo.real_train) ∧
  outcome (for_each [(0%nat, "A")]
             (evaluate_column Demo.real_train Demo.real_test Demo.generated
                Demo.Model Demo.accuracy) ([], []))
    = inr ([2 # 2], [0 # 2]) ∧
  length [2 # 2] = length [0 # 2].
Proof.
  assert ([(0%nat, "A")] `prefix_of` enumerate (columns Demo.real_train))
    as Hprefix by (by exists [(1%nat, "B")]).
  assert (outcome (for_each [(0%nat, "A")]
            (evaluate_column Demo.real_train Demo.real_test Demo.generated
               Demo.Model Demo.accuracy) ([], []))
          = inr ([2 # 2], [0 # 2])) as Hrun by (by vm_compute).
  split_and!; [done..|].
  apply (score_lists_stay_aligned Demo.real_train Demo.real_test
           Demo.generated Demo.Model Demo.accuracy
           [(0%nat, "A")] ([2 # 2], [0 # 2]) Hprefix Hrun).
Defined.


(** C4 (as stated, refuted).  Training labels of one class do not by
    themselves lead to the constant prediction: a model that accepts them
    and gives two columns of probabilities is scored on its own
    prediction.  Here the labels are all 1, the model predicts class 0 for
    the three holdout rows and scores 1/3, where the constant prediction
    of the first training label would score 2/3. *)
Lemma one_class_labels_do_not_force_the_fallback :
  ¬ (∀ (Clf : Type) (C : Classifier Clf) (Model : unit → Clf)
       (X_train : ndarray2) (y_train : vec) (X_test : ndarray2)
       (y_test : vec) (y0 : Q),
       y_test ≠ [] → head y_train = Some y0 →
       length (np_unique y_train) = 1%nat →
       outcome (get_prediction_score X_train y_train X_test y_test
                  Model Demo.accuracy) =
       Demo.accuracy y_test (np_full (length y_test) y0)).
Proof.
  intros Hclaim.
  specialize (Hclaim Lenient.always_0 _ Lenient.Model
                {| n_rows := 3; col_data := [[0; 1; 0]%Q] |} [1; 1; 1]%Q
                {| n_rows := 3; col_data := [[0; 1; 1]%Q] |} [1; 1; 0]%Q
                1%Q ltac:(done) eq_refl eq_refl).
  vm_compute in Hclaim. discriminate Hclaim.
Qed.

Lemma fit_failure_falls_back_to_constant_witness :
  let X_train := {| n_rows := 2; col_data := [[0; 1]%Q] |} in
  let X_test := {| n_rows := 2; col_data := [[0; 1]%Q] |} in
  let y_train := [1; 1]%Q in
  let y_test := [1; 0]%Q in
  (y_train ≠ [] ∧ y_test ≠ [] ∧
   outcome (fit_and_predict (Demo.Model ()) X_train y_train X_test)
     = inl (LibraryError "needs samples of at least 2 classes")) ∧
  get_prediction_score X_train y_train X_test y_test Demo.Model Demo.accuracy
    = ([Call_fit X_train y_train; Call_score y_test [1; 1]%Q], inr (1 # 2)).
Proof.
  intros X_train X_test y_train y_test.
  assert (outcome (fit_and_predict (Demo.Model ()) X_train y_train X_test)
          = inl (LibraryError "needs samples of at least 2 classes"))
    as Hfail by reflexivity.
  split; [done|].
  destruct (fit_failure_falls_back_to_constant Demo.Model Demo.accuracy
              X_train y_train X_test y_test _ ltac:(done) ltac:(done) Hfail)
    as (y0 & prediction & [= <-] & -> & _ & _ & ->).
  reflexivity.
Defined.

Lemma column_check_raises_before_any_work_witness :
  list_to_set (columns Demo.real_train) ≠@{gset label}
    list_to_set (columns Demo.generated_A) ∧
  feature_prediction_evaluation Demo.real_train Demo.real_test
    Demo.generated_A Demo.Model Demo.accuracy (4 # 5) true =
    ([], inl (Exception "Columns of given datasets are not identical.")) ∧
  feature_probabilities_evaluation Demo.real_train Demo.generated_A true =
    ([], inl (Exception "Columns of given datasets are not identical.")).
Proof.
  assert (list_to_set (columns Demo.real_train) ≠@{gset label}
          list_to_set (columns Demo.generated_A)) as Hne by by_evaluation.
  split; [done|].
  by apply column_check_raises_before_any_work.
Defined.

(** * Further properties of the code *)

(** ** Column isolation, again *)




(** ** The per-column score, again *)

Section score_shape.
Context `{Classifier Clf}.
Variables (Model : unit → Clf) (score : scorer).

Lemma fit_and_predict_trace (clf : Clf) (X_train : ndarray2) (y_train : vec)
    (X_test : ndarray2) :
  ∃ calls,
    trace (fit_and_predict clf X_train y_train X_test) =
      Call_fit X_train y_train :: calls ∧
    (calls = [] ∨ calls = [Call_predict_proba X_test]).
Proof.
  unfold fit_and_predict, call_fit, call_predict_proba, trace, bind, emit,
    lift. simpl.
  destruct (fit clf X_train y_train) as [e|fitted]; simpl; [eauto|].
  destruct (predict_proba fitted X_test) as [e|P]; simpl; eauto.
Qed.

(** The prediction that reaches the scorer. *)
Lemma prediction_cases (X_train : ndarray2) (y0 : Q) (y_train : vec)
    (X_test : ndarray2) (y_test : vec) :
  ∃ p,
    try_except (fit_and_predict (Model ()) X_train (y0 :: y_train) X_test)
      (λ _, constant_prediction (y0 :: y_train) y_test) =
    (trace (fit_and_predict (Model ()) X_train (y0 :: y_train) X_test),
     inr p) ∧
    (outcome (fit_and_predict (Model ()) X_train (y0 :: y_train) X_test)
       = inr p ∨
     (∃ e, outcome (fit_and_predict (Model ()) X_train (y0 :: y_train)
                      X_test) = inl e) ∧
     p = np_full (length y_test) y0).
Proof.
  rewrite (run_eta (try_except _ _)).
  rewrite trace_try_except, outcome_try_except.
  destruct (outcome (fit_and_predict _ _ _ _)) as [e|p] eqn:Hout.
  - exists (np_full (length y_test) y0). split; [|right; eauto].
    unfold constant_prediction. cbn [item0]. run_steps.
    simpl. by rewrite app_nil_r.
  - exists p. split; [|by left]. by rewrite app_nil_r.
Qed.

(** With labels on both sides: one [fit] first, at most one prediction,
    one scorer call last. *)
Lemma get_prediction_score_shape (X_train : ndarray2) (y_train : vec)
    (X_test : ndarray2) (y_test : vec) :
  y_train ≠ [] → y_test ≠ [] →
  ∃ calls prediction,
    get_prediction_score X_train y_train X_test y_test Model score =
      (Call_fit X_train y_train :: calls ++ [Call_score y_test prediction],
       score y_test prediction) ∧
    (calls = [] ∨ calls = [Call_predict_proba X_test]).
Proof.
  intros Htrain Htest.
  rewrite get_prediction_score_nonempty by done.
  destruct y_train as [|y0 y_train]; [done|].
  destruct (prediction_cases X_train y0 y_train X_test y_test)
    as (p & -> & _).
  destruct (fit_and_predict_trace (Model ()) X_train (y0 :: y_train) X_test)
    as (calls & -> & Hcalls).
  exists calls, p. split; [|done].
  unfold call_score, bind, emit, lift. simpl. by rewrite ?app_nil_r.
Qed.

(** The library calls of the per-column score, whatever the labels. *)
Lemma get_prediction_score_trace (X_train : ndarray2) (y_train : vec)
    (X_test : ndarray2) (y_test : vec) :
  Forall (λ ev, ev = Call_fit X_train y_train ∨
                ev = Call_predict_proba X_test ∨
                ∃ p, ev = Call_score y_test p)
    (trace (get_prediction_score X_train y_train X_test y_test Model score)).
Proof.
  destruct (decide (y_train = [] ∨ y_test = [])) as [Hempty|Hlabels].
  { rewrite get_prediction_score_empty by done. constructor. }
  destruct (get_prediction_score_shape X_train y_train X_test y_test)
    as (calls & p & -> & Hcalls); [naive_solver..|].
  cbn [trace fst]. constructor; [by left|].
  apply Forall_app. split.
  - destruct Hcalls as [->| ->]; [constructor|].
    constructor; [|constructor]. right. by left.
  - constructor; [|constructor]. right. right. eauto.
Qed.

(** With a factory that returns, the per-column score raises the
    [RuntimeError] of the bare [raise] or what the scorer raises. *)
Lemma get_prediction_score_raises_after_factory (X_train : ndarray2)
    (y_train : vec) (X_test : ndarray2) (y_test : vec) (e : exn) :
  outcome (get_prediction_score X_train y_train X_test y_test Model score)
    = inl e →
  (e = RuntimeError "No active exception to reraise" ∧
   (y_train = [] ∨ y_test = [])) ∨
  (y_train ≠ [] ∧ y_test ≠ [] ∧ ∃ prediction, score y_test prediction = inl e).
Proof.
  destruct (decide (y_train = [])) as [->|Htrain].
  { rewrite get_prediction_score_empty by by left.
    intros [= <-]. left. split; [done|by left]. }
  destruct (decide (y_test = [])) as [->|Htest].
  { rewrite get_prediction_score_empty by by right.
    intros [= <-]. left. split; [done|by right]. }
  destruct y_train as [|y0 y_train]; [done|].
  rewrite get_prediction_score_nonempty by done.
  destruct (prediction_cases X_train y0 y_train X_test y_test)
    as (p & -> & _).
  unfold call_score, bind, emit, lift, outcome. simpl.
  intros Hscore. right. eauto.
Qed.

(** X4.  When [fit] and [predict_proba] succeed and the probabilities have
    a column of index 1, the score is the scorer's value on that column,
    not on the fallback, after exactly these three calls. *)
Theorem get_prediction_score_uses_class_1 (X_train : ndarray2) (y_train : vec)
    (X_test : ndarray2) (y_test : vec) (fitted : Clf) (P : ndarray2)
    (prediction : vec) :
  y_train ≠ [] → y_test ≠ [] →
  fit (Model ()) X_train y_train = inr fitted →
  predict_proba fitted X_test = inr P →
  col_data P !! 1%nat = Some prediction →
  get_prediction_score X_train y_train X_test y_test Model score =
    ([Call_fit X_train y_train; Call_predict_proba X_test;
      Call_score y_test prediction],
     score y_test prediction).
Proof.
  intros Htrain Htest Hfit Hpredict Hcolumn.
  rewrite get_prediction_score_nonempty by done.
  unfold fit_and_predict, call_fit, call_predict_proba, call_score, column1,
    try_except, bind, emit, lift.
  simpl. rewrite Hfit. simpl. rewrite Hpredict. simpl. rewrite Hcolumn.
  done.
Qed.
End score_shape.

(** ** The per-column score when the factory may raise *)

Section factory.
Context `{Classifier Clf}.
Variables (Model : unit → exn + Clf) (score : scorer).

Lemma get_prediction_score_from_returns (X_train : ndarray2) (y_train : vec)
    (X_test : ndarray2) (y_test : vec) (clf : Clf) :
  Model () = inr clf →
  get_prediction_score_from X_train y_train X_test y_test Model score =
  get_prediction_score X_train y_train X_test y_test (λ _, clf) score.
Proof.
  intros Hclf. unfold get_prediction_score_from, get_prediction_score.
  rewrite Hclf. destruct (_ || _); [done|]. by run_steps.
Qed.

Lemma get_prediction_score_from_raises (X_train : ndarray2) (y_train : vec)
    (X_test : ndarray2) (y_test : vec) (e : exn) :
  y_train ≠ [] → y_test ≠ [] → Model () = inl e →
  get_prediction_score_from X_train y_train X_test y_test Model score =
  raise e.
Proof.
  intros Htrain Htest Hraise. unfold get_prediction_score_from.
  destruct (Nat.eqb_spec (length (np_unique y_train)) 0) as [E|_].
  { by apply np_unique_length_0 in E. }
  destruct (Nat.eqb_spec (length (np_unique y_test)) 0) as [E|_].
  { by apply np_unique_length_0 in E. }
  by rewrite Hraise.
Qed.

Lemma get_prediction_score_from_empty (X_train : ndarray2) (y_train : vec)
    (X_test : ndarray2) (y_test : vec) :
  y_train = [] ∨ y_test = [] →
  get_prediction_score_from X_train y_train X_test y_test Model score =
  raise (RuntimeError "No active exception to reraise").
Proof.
  intros Hempty. unfold get_prediction_score_from.
  destruct Hempty as [-> | ->]; simpl; [done|].
  by rewrite orb_true_r.
Qed.

(** X2.  With labels on both sides, the per-column score first calls the
    model factory.  When the factory raises, its exception leaves the
    function and nothing is fitted or scored.  When it returns a model, the
    function calls [fit] once, on the training data and before any other
    call, asks for a prediction at most once, on the holdout features, and
    calls the scorer once, last, on the holdout labels; the result is the
    scorer's. *)
Theorem get_prediction_score_calls (X_train : ndarray2) (y_train : vec)
    (X_test : ndarray2) (y_test : vec) :
  y_train ≠ [] → y_test ≠ [] →
  (∀ e, Model () = inl e →
     get_prediction_score_from X_train y_train X_test y_test Model score =
       ([], inl e)) ∧
  (∀ clf, Model () = inr clf →
     ∃ calls prediction,
       get_prediction_score_from X_train y_train X_test y_test Model score =
         (Call_fit X_train y_train :: calls
            ++ [Call_score y_test prediction],
          score y_test prediction) ∧
       (calls = [] ∨ calls = [Call_predict_proba X_test])).
Proof.
  intros Htrain Htest. split.
  - intros e Hraise. by apply get_prediction_score_from_raises.
  - intros clf Hclf. rewrite (get_prediction_score_from_returns _ _ _ _ _ Hclf).
    by apply get_prediction_score_shape.
Qed.

(** X3.  The per-column score raises in three ways only: the
    [RuntimeError] of the bare [raise], when the training or the holdout
    labels are empty; what the model factory raises; and what the scorer
    raises on the holdout labels.  No exception of [fit] or
    [predict_proba] and no [IndexError] of the fallback leaves it. *)
Theorem get_prediction_score_raises (X_train : ndarray2) (y_train : vec)
    (X_test : ndarray2) (y_test : vec) (e : exn) :
  outcome (get_prediction_score_from X_train y_train X_test y_test
             Model score) = inl e →
  (e = RuntimeError "No active exception to reraise" ∧
   (y_train = [] ∨ y_test = [])) ∨
  (y_train ≠ [] ∧ y_test ≠ [] ∧
   (Model () = inl e ∨ ∃ prediction, score y_test prediction = inl e)).
Proof.
  destruct (decide (y_train = [] ∨ y_test = [])) as [Hempty|Hlabels].
  { rewrite get_prediction_score_from_empty by done.
    intros [= <-]. by left. }
  assert (y_train ≠ [] ∧ y_test ≠ []) as [Htrain Htest] by naive_solver.
  destruct (Model ()) as [e'|clf] eqn:Hfactory.
  - rewrite (get_prediction_score_from_raises _ _ _ _ e') by done.
    intros [= <-]. right. split_and!; [done..|]. by left.
  - rewrite (get_prediction_score_from_returns _ _ _ _ _ Hfactory).
    intros Hraise.
    apply get_prediction_score_raises_after_factory in Hraise
      as [[_ Hempty]|(_ & _ & Hscore)]; [done|].
    right. split_and!; [done..|]. by right.
Qed.
End factory.

(** ** The log of the predictive-utility evaluation *)

Lemma Forall_trace_bind {A B} (P : event → Prop) (m : Run A) (k : A → Run B) :
  Forall P (trace m) → (∀ a, outcome m = inr a → Forall P (trace (k a))) →
  Forall P (trace (bind m k)).
Proof.
  intros Hm Hk. rewrite trace_bind. apply Forall_app. split; [done|].
  destruct (outcome m) as [e|a]; [constructor|]. by apply Hk.
Qed.

Lemma Forall_trace_try_except {A} (P : event → Prop) (body : Run A)
    (handler : exn → Run A) :
  Forall P (trace body) → (∀ e, Forall P (trace (handler e))) →
  Forall P (trace (try_except body handler)).
Proof.
  intros Hbody Hhandler. rewrite trace_try_except.
  apply Forall_app. split; [done|].
  destruct (outcome body); [apply Hhandler|constructor].
Qed.

Lemma Forall_trace_for_each {A S} (P : event → Prop) (items : list A)
    (body : A → S → Run S) (s : S) :
  (∀ x s', Forall P (trace (body x s'))) →
  Forall P (trace (for_each items body s)).
Proof.
  intros Hbody. revert s. induction items as [|x items IH]; intros s.
  - constructor.
  - cbn [for_each]. apply Forall_trace_bind; [apply Hbody|].
    intros s' _. apply IH.
Qed.

Lemma omap_all_None {A B} (f : A → option B) (l : list A) :
  Forall (λ x, f x = None) l → omap f l = [].
Proof. induction 1 as [|x l Hx _ IH]; [done|]. simpl. by rewrite Hx. Qed.

Section log.
Context `{Classifier Clf}.
Variables (train test synthetic : DataFrame).
Variables (Model : unit → Clf) (score : scorer).

Abbreviation evaluate := (evaluate_column train test synthetic Model score).

Lemma get_prediction_score_reports_nothing (X_train : ndarray2)
    (y_train : vec) (X_test : ndarray2) (y_test : vec) :
  omap reported_column
    (trace (get_prediction_score X_train y_train X_test y_test Model score))
  = [].
Proof.
  apply omap_all_None.
  eapply Forall_impl; [apply get_prediction_score_trace|].
  intros ev [->|[->|[p ->]]]; done.
Qed.

Lemma score_column_reports (i : nat) (acc : score_lists)
    (Xr : ndarray2) (yr : vec) (Xs : ndarray2) (ys : vec)
    (Xt : ndarray2) (yt : vec) :
  omap reported_column
    (trace (score_column Model score i acc Xr yr Xs ys Xt yt)) =
  match outcome (score_column Model score i acc Xr yr Xs ys Xt yt) with
  | inr _ => [i]
  | inl _ => []
  end.
Proof.
  unfold score_column.
  rewrite trace_bind, outcome_bind, omap_app.
  rewrite get_prediction_score_reports_nothing.
  destruct (outcome (get_prediction_score Xr yr Xt yt Model score))
    as [e|r]; [done|].
  rewrite trace_bind, outcome_bind, omap_app.
  rewrite get_prediction_score_reports_nothing.
  destruct (outcome (get_prediction_score Xs ys Xt yt Model score))
    as [e|s]; done.
Qed.

Lemma evaluate_column_reports (i : nat) (column : label) (acc : score_lists) :
  shared train test synthetic column →
  omap reported_column (trace (evaluate (i, column) acc)) = [i].
Proof.
  intros (Htr & Hsy & Hte). unfold evaluate_column. cbn [fst snd].
  destruct (isolate_column_elem _ _ Htr) as (Xr & yr & ->).
  destruct (isolate_column_elem _ _ Hsy) as (Xs & ys & ->).
  destruct (isolate_column_elem _ _ Hte) as (Xt & yt & ->).
  run_steps. rewrite trace_try_except, omap_app, score_column_reports.
  destruct (outcome (score_column _ _ _ _ _ _ _ _ _ _)); done.
Qed.

Lemma for_each_reports (ics : list (nat * label)) (acc : score_lists) :
  Forall (λ ic, shared train test synthetic ic.2) ics →
  omap reported_column (trace (for_each ics evaluate acc)) = ics.*1.
Proof.
  intros Hall. revert acc.
  induction Hall as [|[i column] ics Hshared _ IH]; intros acc; [done|].
  cbn [for_each]. rewrite trace_bind, omap_app.
  rewrite (evaluate_column_reports i column acc Hshared).
  destruct Hshared as (Htr & Hsy & Hte).
  rewrite (evaluate_column_outcome train test synthetic Model score
             i column acc Htr Hsy Hte).
  by rewrite IH.
Qed.

Lemma plot_scores_reports_nothing (png csv : string) (xs ys : list Q) :
  omap reported_column (trace (plot_scores png csv xs ys)) = [].
Proof. unfold plot_scores. by case_decide. Qed.

(** X5.  On tables that pass the column check and whose holdout table has
    every training column, the evaluation reports every column exactly
    once and in order: the column indices of the printed score lines and
    failure lines are 0, 1, ..., one per column of the training table. *)
Theorem every_column_is_reported_once (training_proportion : Q)
    (plot : bool) :
  list_to_set (columns train) =@{gset label} list_to_set (columns synthetic) →
  columns train ⊆ columns test →
  omap reported_column
    (trace (feature_prediction_evaluation train test synthetic Model score
              training_proportion plot))
  = seq 0 (length (columns train)).
Proof.
  intros Heq Hsub. unfold feature_prediction_evaluation.
  rewrite decide_False by (by intros []).
  assert (Forall (λ ic : nat * label, shared train test synthetic ic.2)
            (enumerate (columns train))) as Hshared.
  { apply enumerate_shared, Forall_forall. intros c Hc.
    split_and!; [done| by apply (same_columns_elem train synthetic c Heq)
                | by apply Hsub]. }
  rewrite trace_bind, omap_app, (for_each_reports _ _ Hshared).
  rewrite (for_each_outcome train test synthetic Model score _ _ Hshared).
  rewrite trace_bind, omap_app.
  match goal with
  | |- context [trace (if plot then ?a else ?b)] =>
      assert (omap reported_column (trace (if plot then a else b)) = [])
        as ->
  end.
  { destruct plot; [apply plot_scores_reports_nothing|done]. }
  destruct (outcome (if plot then _ else _)); simpl;
    rewrite !app_nil_r; unfold enumerate;
    by rewrite fst_zip by (by rewrite length_seq).
Qed.

Lemma score_column_respects_split (i : nat) (acc : score_lists)
    (column : label)
    (Xr : ndarray2) (yr : vec) (Xs : ndarray2) (ys : vec)
    (Xt : ndarray2) (yt : vec) :
  isolate_column train column = inr (Xr, yr) →
  isolate_column synthetic column = inr (Xs, ys) →
  isolate_column test column = inr (Xt, yt) →
  Forall (respects_split train test synthetic)
    (trace (score_column Model score i acc Xr yr Xs ys Xt yt)).
Proof.
  intros Htr Hsy Hte. unfold score_column.
  apply Forall_trace_bind.
  { eapply Forall_impl; [apply get_prediction_score_trace|].
    intros ev [->|[->|[p ->]]]; simpl; eauto. }
  intros r _. apply Forall_trace_bind.
  { eapply Forall_impl; [apply get_prediction_score_trace|].
    intros ev [->|[->|[p ->]]]; simpl; eauto. }
  intros s _. apply Forall_trace_bind; repeat constructor.
Qed.

Lemma evaluate_column_respects_split (ic : nat * label) (acc : score_lists) :
  Forall (respects_split train test synthetic) (trace (evaluate ic acc)).
Proof.
  unfold evaluate_column.
  destruct (isolate_column train ic.2) as [?|[Xr yr]] eqn:Htr;
    [constructor|].
  destruct (isolate_column synthetic ic.2) as [?|[Xs ys]] eqn:Hsy;
    [constructor|].
  destruct (isolate_column test ic.2) as [?|[Xt yt]] eqn:Hte;
    [constructor|].
  run_steps. apply Forall_trace_try_except.
  - by eapply score_column_respects_split.
  - intros e. repeat constructor.
Qed.

(** X6.  The evaluation keeps training and holdout data apart: every model
    is fitted on a column split of the real training table or of the
    synthetic table, every prediction is asked on the features of a column
    split of the holdout table, and every score is taken against a column
    of the holdout table. *)
Theorem library_calls_respect_the_split (training_proportion : Q)
    (plot : bool) :
  Forall (respects_split train test synthetic)
    (trace (feature_prediction_evaluation train test synthetic Model score
              training_proportion plot)).
Proof.
  unfold feature_prediction_evaluation. case_decide; [constructor|].
  apply Forall_trace_bind.
  { apply Forall_trace_for_each. intros ic acc.
    apply evaluate_column_respects_split. }
  intros [xs ys] _. apply Forall_trace_bind; [|intros; constructor].
  destruct plot; [|constructor].
  unfold plot_scores. case_decide; repeat constructor.
Qed.
End log.

(** ** Plotting *)

Section plotting.
Context `{Classifier Clf}.
Variables (train test synthetic : DataFrame).
Variables (Model : unit → Clf) (score : scorer).

(** X7.  The plot flag changes neither what the evaluation computes nor
    whether it raises.  A run that raises is the same with and without it;
    a run that returns gains two outputs at its end, the scatter plot and
    the CSV file, both holding the two score lists, which have the same
    length and whose squared differences sum to the returned value. *)
Theorem plotting_only_adds_output (training_proportion : Q) :
  match outcome (feature_prediction_evaluation train test synthetic
                   Model score training_proportion false) with
  | inl _ =>
      feature_prediction_evaluation train test synthetic Model score
        training_proportion true =
      feature_prediction_evaluation train test synthetic Model score
        training_proportion false
  | inr v =>
      ∃ xs ys,
        length xs = length ys ∧
        v = py_sum (sq_diff <$> zip xs ys) ∧
        feature_prediction_evaluation train test synthetic Model score
          training_proportion true =
        (trace (feature_prediction_evaluation train test synthetic
                  Model score training_proportion false)
           ++ [Savefig "dw-pred.png" xs ys; To_csv "dw-pred.csv" xs ys],
         inr v)
  end.
Proof.
  unfold feature_prediction_evaluation. case_decide; [done|].
  destruct (for_each (enumerate (columns train))
              (evaluate_column train test synthetic Model score) ([], []))
    as [t [e|[xs ys]]] eqn:Hloop; [done|].
  assert (length xs = length ys) as Hlen.
  { apply (for_each_aligned train test synthetic Model score
             (enumerate (columns train)) ([], []) (xs, ys)); [done|].
    by rewrite Hloop. }
  unfold bind, plot_scores, emit, ret, outcome. simpl.
  rewrite decide_True by done. simpl.
  exists xs, ys. split_and!; [done..|].
  by rewrite !app_nil_r.
Qed.
End plotting.

(** ** A holdout table without rows *)

Section no_holdout_rows.
Context `{Classifier Clf}.
Variables (train test synthetic : DataFrame).
Variables (Model : unit → Clf) (score : scorer).

Abbreviation evaluate := (evaluate_column train test synthetic Model score).

(** The lines printed for a column that fails on empty labels. *)
Abbreviation failure_lines :=
  (λ i : nat,
     [Print_exn (RuntimeError "No active exception to reraise");
      Print_failed i]).

Lemma getitem_elem_of (df : DataFrame) (column : label) (y : vec) :
  getitem df column = inr y → ∃ s, s ∈ series df ∧ s.2 = y.
Proof.
  unfold getitem.
  destruct (list_find _ _) as [[j s]|] eqn:Hfind; [|done].
  intros [= <-]. apply list_find_Some in Hfind as (Hj & _ & _).
  exists s. split; [|done]. by eapply list_elem_of_lookup_2.
Qed.

Lemma isolate_column_label (df : DataFrame) (column : label)
    (X : ndarray2) (y : vec) :
  isolate_column df column = inr (X, y) → ∃ s, s ∈ series df ∧ s.2 = y.
Proof.
  unfold isolate_column, astype_float32.
  destruct (df_drop df column); [done|].
  destruct (getitem df column) as [|y'] eqn:Hget; [done|].
  intros [= _ <-]. by eapply getitem_elem_of.
Qed.

Lemma evaluate_column_no_rows (i : nat) (column : label) (acc : score_lists) :
  Forall (λ s, s.2 = []) (series test) →
  shared train test synthetic column →
  evaluate (i, column) acc = (failure_lines i, inr acc).
Proof.
  intros Hempty (Htr & Hsy & Hte). unfold evaluate_column. cbn [fst snd].
  destruct (isolate_column_elem _ _ Htr) as (Xr & yr & ->).
  destruct (isolate_column_elem _ _ Hsy) as (Xs & ys & ->).
  destruct (isolate_column_elem _ _ Hte) as (Xt & yt & Hiso).
  assert (yt = []) as ->.
  { destruct (isolate_column_label _ _ _ _ Hiso) as (s & Hs & <-).
    by apply (proj1 (Forall_forall _ _) Hempty s Hs). }
  rewrite Hiso. run_steps.
  unfold score_column.
  rewrite (get_prediction_score_empty Model score Xr yr Xt [])
    by (by right).
  done.
Qed.

Lemma for_each_no_rows (first : nat) (cols : list label) (acc : score_lists) :
  Forall (λ s, s.2 = []) (series test) →
  Forall (shared train test synthetic) cols →
  for_each (zip (seq first (length cols)) cols) evaluate acc =
  (mjoin (failure_lines <$> seq first (length cols)), inr acc).
Proof.
  intros Hempty Hall. revert first.
  induction Hall as [|c cols Hc _ IH]; intros first; [done|].
  cbn [length seq zip_with for_each fmap list_fmap mjoin list_join].
  rewrite (evaluate_column_no_rows first c acc Hempty Hc).
  unfold bind. rewrite IH. done.
Qed.

(** X8.  When the holdout table has no rows, every column fails on its
    empty labels: the evaluation fits and scores nothing, prints the
    failure of each column in turn, and returns 0, the value it also
    returns for a synthetic table that matches the real one perfectly. *)
Theorem no_holdout_rows_scores_nothing (training_proportion : Q) :
  list_to_set (columns train) =@{gset label} list_to_set (columns synthetic) →
  columns train ⊆ columns test →
  Forall (λ s, s.2 = []) (series test) →
  feature_prediction_evaluation train test synthetic Model score
    training_proportion false =
  (mjoin (failure_lines <$> seq 0 (length (columns train))), inr 0%Q).
Proof.
  intros Heq Hsub Hempty. unfold feature_prediction_evaluation.
  rewrite decide_False by (by intros []).
  unfold enumerate. rewrite for_each_no_rows; [|done|].
  - unfold bind, ret. simpl. by rewrite !app_nil_r.
  - apply Forall_forall. intros c Hc.
    split_and!; [done| by apply (same_columns_elem train synthetic c Heq)
                | by apply Hsub].
Qed.
End no_holdout_rows.

(** ** The size of the aggregate *)

Lemma Qsquare (q : Q) : (q ^ 2 == q * q)%Q.
Proof. reflexivity. Qed.

Lemma sq_diff_nonneg (p : Q * Q) : (0 <= sq_diff p)%Q.
Proof.
  unfold sq_diff. rewrite Qsquare. generalize (p.1 - p.2)%Q. intros d. nra.
Qed.

Lemma sq_diff_zero (p : Q * Q) : (sq_diff p == 0 ↔ p.1 == p.2)%Q.
Proof.
  unfold sq_diff. rewrite Qsquare. split.
  - intros Hzero. apply Qmult_integral in Hzero. lra.
  - intros Heq. rewrite Heq. ring.
Qed.

Lemma sq_diff_le_1 (p : Q * Q) :
  (0 <= p.1 <= 1 → 0 <= p.2 <= 1 → sq_diff p <= 1)%Q.
Proof.
  unfold sq_diff. rewrite Qsquare. intros H1 H2.
  assert (0 <= (1 - (p.1 - p.2)) * (1 + (p.1 - p.2)))%Q as Hprod.
  { apply Qmult_le_0_compat; lra. }
  lra.
Qed.

Lemma sum_sq_diff_nonneg (l : list (Q * Q)) :
  (0 <= foldr Qplus 0 (sq_diff <$> l))%Q.
Proof.
  induction l as [|p l IH]; cbn [fmap list_fmap foldr]; [apply Qle_refl|].
  pose proof (sq_diff_nonneg p). lra.
Qed.

Lemma sum_sq_diff_zero (l : list (Q * Q)) :
  (foldr Qplus 0 (sq_diff <$> l) == 0)%Q ↔ Forall (λ p, (p.1 == p.2)%Q) l.
Proof.
  induction l as [|p l IH]; cbn [fmap list_fmap foldr].
  - split; [constructor|reflexivity].
  - pose proof (sq_diff_nonneg p). pose proof (sum_sq_diff_nonneg l).
    rewrite Forall_cons, <- IH, <- sq_diff_zero. split; [|intros []]; lra.
Qed.

Lemma sum_sq_diff_le_length (l : list (Q * Q)) :
  Forall (λ p, (0 <= p.1 <= 1)%Q ∧ (0 <= p.2 <= 1)%Q) l →
  (foldr Qplus 0 (sq_diff <$> l) <= inject_Z (Z.of_nat (length l)))%Q.
Proof.
  induction 1 as [|p l [Hp1 Hp2] _ IH]; [apply Qle_refl|].
  cbn [fmap list_fmap foldr length].
  rewrite Nat2Z.inj_succ, <- Z.add_1_l, inject_Z_plus.
  apply Qplus_le_compat; [by apply sq_diff_le_1|exact IH].
Qed.

Lemma length_omap_le {A B} (f : A → option B) (l : list A) :
  (length (omap f l) ≤ length l)%nat.
Proof.
  induction l as [|x l IH]; [done|].
  simpl. destruct (f x); simpl; [apply le_n_S|apply le_S]; exact IH.
Qed.

Section size.
Context `{Classifier Clf}.
Variables (train test synthetic : DataFrame).
Variables (Model : unit → Clf) (score : scorer).

Lemma fpe_returned_sum (training_proportion : Q) (plot : bool) (v : Q) :
  returned (feature_prediction_evaluation train test synthetic Model score
              training_proportion plot) = Some v →
  (v == sum_over_succeeded train test synthetic Model score)%Q.
Proof.
  intros Hv.
  destruct (decide (list_to_set (columns train) =@{gset label}
                    list_to_set (columns synthetic))) as [Heq|Hne].
  - destruct (decide (columns train ⊆ columns test)) as [Hsub|Hsub].
    + apply returned_outcome in Hv.
      rewrite (fpe_outcome _ _ _ _ _ _ _ Heq Hsub) in Hv.
      injection Hv as <-. apply py_sum_foldr.
    + destruct (fpe_missing train test synthetic Model score
                  training_proportion plot Heq Hsub)
        as (pre & c & post & _ & _ & _ & Hrun).
      by rewrite Hrun in Hv.
  - unfold feature_prediction_evaluation in Hv.
    by rewrite decide_True in Hv.
Qed.

(** X9.  A returned aggregate is never negative, and it is 0 exactly when
    every column that was scored has the same real and synthetic score. *)
Theorem aggregate_is_nonnegative (training_proportion : Q) (plot : bool)
    (v : Q) :
  returned (feature_prediction_evaluation train test synthetic Model score
              training_proportion plot) = Some v →
  (0 <= v)%Q ∧
  ((v == 0)%Q ↔
   ∀ column real_score synthetic_score,
     column ∈ columns train →
     column_scores train test synthetic Model score column =
       Some (real_score, synthetic_score) →
     (real_score == synthetic_score)%Q).
Proof.
  intros Hv. apply fpe_returned_sum in Hv. unfold sum_over_succeeded in Hv.
  rewrite Hv. split; [apply sum_sq_diff_nonneg|].
  rewrite sum_sq_diff_zero, Forall_forall. split.
  - intros Hall column r s Hin Hscores.
    apply (Hall (r, s)), list_elem_of_omap. eauto.
  - intros Hall [r s] (column & Hin & Hscores)%list_elem_of_omap.
    by eapply Hall.
Qed.

Lemma holdout_score_from_scorer (df : DataFrame) (column : label) (v : Q) :
  holdout_score test Model score df column = Some v →
  ∃ y_true y_pred, score y_true y_pred = inr v.
Proof.
  unfold holdout_score.
  destruct (isolate_column df column) as [?|[X y]]; [done|].
  destruct (isolate_column test column) as [?|[Xt yt]]; [done|].
  intros Hret. apply get_prediction_score_returned in Hret as [p Hp]. eauto.
Qed.

(** X10.  With a scorer whose values lie between 0 and 1, as the axes of
    the plot assume, a returned aggregate is at most the number of columns
    of the training table. *)
Theorem aggregate_is_at_most_the_number_of_columns
    (training_proportion : Q) (plot : bool) (v : Q) :
  (∀ y_true y_pred s, score y_true y_pred = inr s → (0 <= s <= 1)%Q) →
  returned (feature_prediction_evaluation train test synthetic Model score
              training_proportion plot) = Some v →
  (v <= inject_Z (Z.of_nat (length (columns train))))%Q.
Proof.
  intros Hscore Hv. apply fpe_returned_sum in Hv.
  unfold sum_over_succeeded in Hv. rewrite Hv.
  eapply Qle_trans; [apply sum_sq_diff_le_length|].
  - apply Forall_forall.
    intros [r s] (column & _ & Hscores)%list_elem_of_omap.
    unfold column_scores in Hscores.
    destruct (holdout_score test Model score train column) as [r'|] eqn:Hr;
      [|done].
    destruct (holdout_score test Model score synthetic column) as [s'|]
      eqn:Hs; [|done].
    injection Hscores as -> ->.
    apply holdout_score_from_scorer in Hr as (? & ? & Hr).
    apply holdout_score_from_scorer in Hs as (? & ? & Hs).
    split; by eapply Hscore.
  - rewrite <- Zle_Qle. apply inj_le, length_omap_le.
Qed.
End size.

(** ** The outcomes of the marginal-probability evaluation *)

Lemma getitem_cells (df : DataFrame) (column : label) :
  column ∈ columns df → getitem df column = inr (cells df column).
Proof.
  intros Hin. unfold cells.
  by destruct (getitem_elem df column Hin) as [y ->].
Qed.

Section probabilities_outcomes.
Variables (real synthetic : DataFrame).

Abbreviation has_rows :=
  (λ c : label, cells real c ≠ [] ∧ cells synthetic c ≠ []).

Lemma column_probabilities_no_rows (column : label) (props : score_lists) :
  column ∈ columns real → column ∈ columns synthetic →
  ¬ has_rows column →
  column_probabilities real synthetic column props =
  raise (ZeroDivisionError "division by zero").
Proof.
  intros Hreal Hsynthetic Hrows. unfold column_probabilities.
  rewrite (getitem_cells _ _ Hreal). run_steps.
  rewrite (getitem_cells _ _ Hsynthetic). run_steps. cbv zeta.
  destruct (cells real column) as [|x a] eqn:Hcells.
  - reflexivity.
  - destruct (index1_probability_share (x :: a)) as (p & -> & _); [done|].
    run_steps.
    destruct (cells synthetic column) as [|x' a'] eqn:Hcells';
      [reflexivity|].
    destruct Hrows. by rewrite Hcells, Hcells'.
Qed.

Lemma probabilities_raise (plot : bool) :
  list_to_set (columns real) =@{gset label} list_to_set (columns synthetic) →
  ¬ Forall has_rows (columns real) →
  feature_probabilities_evaluation real synthetic plot =
  raise (ZeroDivisionError "division by zero").
Proof.
  intros Heq Hrows.
  destruct (first_failure has_rows (columns real) Hrows)
    as (pre & c & post & Hsplit & Hpre & Hc).
  unfold feature_probabilities_evaluation.
  rewrite decide_False by (by intros []).
  rewrite Hsplit, for_each_app.
  destruct (for_each_column_probabilities real synthetic pre ([], []) Hpre)
    as (prs & pss & -> & _).
  run_steps. cbn [for_each].
  rewrite column_probabilities_no_rows; [done| | |done].
  - rewrite Hsplit. apply elem_of_app. right. apply elem_of_cons. by left.
  - apply (same_columns_elem real synthetic c Heq).
    rewrite Hsplit. apply elem_of_app. right. apply elem_of_cons. by left.
Qed.

Lemma probabilities_return (plot : bool) :
  is_Some (returned (feature_probabilities_evaluation real synthetic plot)) ↔
  list_to_set (columns real) =@{gset label} list_to_set (columns synthetic) ∧
  Forall has_rows (columns real).
Proof.
  split.
  - intros [v Hv].
    destruct (decide (list_to_set (columns real) =@{gset label}
                      list_to_set (columns synthetic))) as [Heq|Hne].
    + split; [done|].
      destruct (decide (Forall has_rows (columns real))) as [Hrows|Hrows];
        [done|].
      by rewrite (probabilities_raise plot Heq Hrows) in Hv.
    + unfold feature_probabilities_evaluation in Hv.
      by rewrite decide_True in Hv.
  - intros [Heq Hrows].
    destruct (marginal_probabilities_on_columns_with_rows real synthetic
                plot Heq Hrows) as (v & Hv & _).
    by exists v.
Qed.
End probabilities_outcomes.

Lemma count_value_le_length (v : Q) (a : vec) :
  (count_value v a ≤ length a)%nat.
Proof. apply length_filter. Qed.

Lemma ratio_bounds (c n : nat) :
  (c ≤ n)%nat → (0 < n)%nat →
  (0 <= inject_Z (Z.of_nat c) / inject_Z (Z.of_nat n) <= 1)%Q.
Proof.
  intros Hle Hpos.
  assert (0 < inject_Z (Z.of_nat n))%Q as Hn.
  { change 0%Q with (inject_Z 0). rewrite <- Zlt_Qlt. lia. }
  split.
  - apply Qle_shift_div_l; [done|]. rewrite Qmult_0_l.
    change 0%Q with (inject_Z 0). rewrite <- Zle_Qle. lia.
  - apply Qle_shift_div_r; [done|]. rewrite Qmult_1_l.
    rewrite <- Zle_Qle. lia.
Qed.

Lemma second_value_share_bounds (a : vec) :
  (0 <= second_value_share a <= 1)%Q.
Proof.
  unfold second_value_share.
  destruct (np_unique a !! 1%nat) as [v|]; [|lra].
  destruct a as [|x a]; [by vm_compute|].
  apply ratio_bounds; [apply count_value_le_length|simpl; lia].
Qed.

Lemma sum_of_share_differences_pairs (real synthetic : DataFrame) :
  sum_of_share_differences real synthetic =
  foldr Qplus 0%Q
    (sq_diff <$> ((λ column, (second_value_share (cells real column),
                              second_value_share (cells synthetic column)))
                    <$> columns real)).
Proof. unfold sum_of_share_differences. by rewrite <- list_fmap_compose. Qed.

Lemma sum_sq_diff_exchange {A} (f g : A → Q) (l : list A) :
  (foldr Qplus 0 ((λ x, sq_diff (f x, g x)) <$> l) ==
   foldr Qplus 0 ((λ x, sq_diff (g x, f x)) <$> l))%Q.
Proof.
  induction l as [|x l IH]; [reflexivity|].
  cbn [fmap list_fmap foldr]. by rewrite IH, sq_diff_swap.
Qed.

Section probabilities_claims.
Variables (real synthetic : DataFrame).

Abbreviation has_rows :=
  (λ c : label, cells real c ≠ [] ∧ cells synthetic c ≠ []).

Lemma probabilities_returned_sum (plot : bool) (v : Q) :
  returned (feature_probabilities_evaluation real synthetic plot) = Some v →
  (v == sum_of_share_differences real synthetic)%Q.
Proof.
  intros Hv.
  destruct (proj1 (probabilities_return real synthetic plot))
    as [Heq Hrows]; [by exists v|].
  destruct (marginal_probabilities_on_columns_with_rows real synthetic
              plot Heq Hrows) as (v' & Hv' & Hsum).
  rewrite Hv in Hv'. by injection Hv' as ->.
Qed.

(** X11.  The marginal-probability evaluation returns a value exactly when
    the two tables have the same column set and every column has at least
    one cell in both; it raises nothing but the column exception and the
    [ZeroDivisionError] of a column without rows, and it prints nothing
    and calls no model. *)
Theorem marginal_probabilities_outcomes (plot : bool) :
  (is_Some (returned (feature_probabilities_evaluation real synthetic plot))
   ↔ list_to_set (columns real) =@{gset label}
       list_to_set (columns synthetic) ∧
     Forall has_rows (columns real)) ∧
  (∀ e,
   outcome (feature_probabilities_evaluation real synthetic plot) = inl e →
   trace (feature_probabilities_evaluation real synthetic plot) = [] ∧
   (e = Exception "Columns of given datasets are not identical." ∨
    e = ZeroDivisionError "division by zero")).
Proof.
  split; [apply probabilities_return|].
  intros e He.
  destruct (decide (list_to_set (columns real) =@{gset label}
                    list_to_set (columns synthetic))) as [Heq|Hne].
  - destruct (decide (Forall has_rows (columns real))) as [Hrows|Hrows].
    + destruct (proj2 (probabilities_return real synthetic plot))
        as [v Hv]; [done|].
      apply returned_outcome in Hv. congruence.
    + rewrite (probabilities_raise real synthetic plot Heq Hrows) in *.
      injection He as <-. split; [done|by right].
  - unfold feature_probabilities_evaluation in *.
    rewrite decide_True in * by done.
    injection He as <-. split; [done|by left].
Qed.

(** X13.  A returned marginal-probability aggregate lies between 0 and the
    number of columns. *)
Theorem marginal_probabilities_bounds (plot : bool) (v : Q) :
  returned (feature_probabilities_evaluation real synthetic plot) = Some v →
  (0 <= v <= inject_Z (Z.of_nat (length (columns real))))%Q.
Proof.
  intros Hv. apply probabilities_returned_sum in Hv.
  rewrite Hv, sum_of_share_differences_pairs. split.
  - apply sum_sq_diff_nonneg.
  - eapply Qle_trans; [apply sum_sq_diff_le_length|].
    + apply Forall_fmap, Forall_forall. intros c _. simpl.
      split; apply second_value_share_bounds.
    + rewrite length_fmap. apply Qle_refl.
Qed.
End probabilities_claims.

(** X12.  Evaluating a table against itself gives marginal-probability
    aggregate 0 whenever the call returns, which it does when every column
    has a row. *)
Theorem marginal_probabilities_of_same_table (df : DataFrame) (plot : bool) :
  (Forall (λ c, cells df c ≠ []) (columns df) →
   is_Some (returned (feature_probabilities_evaluation df df plot))) ∧
  (∀ v,
   returned (feature_probabilities_evaluation df df plot) = Some v →
   (v == 0)%Q).
Proof.
  split.
  - intros Hrows. apply probabilities_return. split; [done|].
    eapply Forall_impl; [exact Hrows|]. by intros c Hc.
  - intros v Hv. apply probabilities_returned_sum in Hv. rewrite Hv.
    rewrite sum_of_share_differences_pairs.
    apply sum_sq_diff_zero, Forall_fmap, Forall_forall. by intros c _.
Qed.

(** X14.  On tables with pairwise distinct column labels, exchanging the
    real and the synthetic table leaves the marginal-probability aggregate
    unchanged: both calls raise, or both return equal values. *)
Theorem marginal_probabilities_swap (real synthetic : DataFrame)
    (plot : bool) :
  NoDup (columns real) → NoDup (columns synthetic) →
  option_Forall2 Qeq
    (returned (feature_probabilities_evaluation real synthetic plot))
    (returned (feature_probabilities_evaluation synthetic real plot)).
Proof.
  intros Hreal Hsynthetic.
  assert (∀ a b,
    is_Some (returned (feature_probabilities_evaluation a b plot)) →
    is_Some (returned (feature_probabilities_evaluation b a plot)))
    as Hboth.
  { intros a b [Heq Hrows]%probabilities_return.
    apply probabilities_return. split; [done|].
    apply Forall_forall. intros c Hc.
    apply (same_columns_elem a b c Heq) in Hc.
    by destruct (proj1 (Forall_forall _ _) Hrows c Hc). }
  destruct (returned (feature_probabilities_evaluation real synthetic plot))
    as [v|] eqn:Hv.
  - destruct (Hboth real synthetic) as [v' Hv']; [by rewrite Hv|].
    rewrite Hv'. constructor.
    pose proof Hv as [Heq _]%mk_is_Some%probabilities_return.
    apply probabilities_returned_sum in Hv, Hv'.
    rewrite Hv, Hv'. unfold sum_of_share_differences.
    rewrite (foldr_Qplus_Permutation
               ((λ column, sq_diff (second_value_share (cells synthetic column),
                                    second_value_share (cells real column)))
                  <$> columns synthetic)
               ((λ column, sq_diff (second_value_share (cells synthetic column),
                                    second_value_share (cells real column)))
                  <$> columns real)).
    + apply sum_sq_diff_exchange.
    + apply fmap_Permutation. symmetry.
      apply NoDup_Permutation; [done..|].
      intros c. apply (same_columns_elem real synthetic c Heq).
  - destruct (returned (feature_probabilities_evaluation synthetic real plot))
      as [v'|] eqn:Hv'; [|constructor].
    destruct (Hboth synthetic real) as [v Hv'']; [by rewrite Hv'|].
    congruence.
Qed.

(** ** Class balancing *)

Lemma np_where_eq_lt (v : Q) (label : vec) :
  Forall (λ i, (i < length label)%nat) (np_where_eq v label).
Proof.
  unfold np_where_eq. apply Forall_fmap, Forall_forall.
  intros [i x] [_ Hin]%list_elem_of_filter. simpl.
  unfold enumerate in Hin.
  apply list_elem_of_lookup in Hin as [j Hj].
  apply lookup_zip_with_Some in Hj as (i' & x' & [= <- <-] & Hi & Hx).
  by apply lookup_lt_Some in Hx as Hlt;
    apply lookup_seq in Hi as [-> _].
Qed.

Lemma rows_at_in_range {A} (data : list A) (index : list nat) :
  Forall (λ i, (i < length data)%nat) index →
  ∃ rows, rows_at data index = inr rows ∧ length rows = length index ∧
          Forall (λ r, r ∈ data) rows.
Proof.
  induction 1 as [|i index Hi _ (rows & IH & Hlen & Hin)]; [by exists []|].
  destruct (lookup_lt_is_Some_2 data i Hi) as [r Hr].
  exists (r :: rows). cbn [rows_at]. unfold row_at. rewrite Hr, IH.
  split_and!; [done|simpl; by rewrite Hlen|].
  constructor; [by eapply list_elem_of_lookup_2|done].
Qed.

Lemma rows_at_length {A} (data : list A) (index : list nat) (rows : list A) :
  rows_at data index = inr rows → length rows = length index.
Proof.
  revert rows. induction index as [|i index IH]; intros rows; simpl.
  - by intros [= <-].
  - destruct (row_at data i); [done|].
    destruct (rows_at data index) as [|rs]; [done|].
    intros [= <-]. simpl. by rewrite (IH rs).
Qed.

Lemma relabel_even {A} (rows : list A) (k : nat) :
  length rows = (k + k)%nat →
  relabel (Rows rows) = ret (Rows rows, replicate k 0%Q ++ replicate k 1%Q).
Proof.
  intros Hlen. unfold relabel. cbn [len]. rewrite Hlen.
  replace (k + k)%nat with (k * 2)%nat by lia.
  by rewrite Nat.div_mul.
Qed.

Section balancing_properties.
Context {A : Type}.
Variable train_test_split : list A → nat → exn + (list A * list A).

(** X15.  Data whose labels hold as many zeros as ones comes back
    unchanged, rows and labels, without any call of the split; this
    includes labels with neither class and rows with other labels. *)
Theorem balance_keeps_balanced_data (data : list A) (label : vec) :
  (length label ≤ length data)%nat →
  length (np_where_eq 0 label) = length (np_where_eq 1 label) →
  balance train_test_split data label = ret (Rows data, label).
Proof.
  intros Hrows Hsame. unfold balance.
  destruct (rows_at_in_range data (np_where_eq 0 label))
    as (data_0 & -> & _).
  { eapply Forall_impl; [apply np_where_eq_lt|]. intros i Hi. simpl in *. lia. }
  destruct (rows_at_in_range data (np_where_eq 1 label))
    as (data_1 & -> & _).
  { eapply Forall_impl; [apply np_where_eq_lt|]. intros i Hi. simpl in *. lia. }
  run_steps. rewrite Hsame, Nat.ltb_irrefl. done.
Qed.

(** X16.  When one class outnumbers the other and the split returns a test
    part of the size it was asked for, the result holds that sample of the
    larger class and all rows of the smaller class, the rows of class 0
    first, and its labels are as many zeros followed by as many ones as the
    smaller class has rows. *)
Theorem balance_samples_the_larger_class (data : list A) (label : vec)
    (data_0 data_1 discarded sample : list A) :
  rows_at data (np_where_eq 0 label) = inr data_0 →
  rows_at data (np_where_eq 1 label) = inr data_1 →
  (data_1 ≠ [] → (length data_1 < length data_0)%nat →
   train_test_split data_0 (length data_1) = inr (discarded, sample) →
   length sample = length data_1 →
   balance train_test_split data label =
     ret (Rows (sample ++ data_1),
          replicate (length data_1) 0%Q ++ replicate (length data_1) 1%Q)) ∧
  (data_0 ≠ [] → (length data_0 < length data_1)%nat →
   train_test_split data_1 (length data_0) = inr (discarded, sample) →
   length sample = length data_0 →
   balance train_test_split data label =
     ret (Rows (data_0 ++ sample),
          replicate (length data_0) 0%Q ++ replicate (length data_0) 1%Q)).
Proof.
  intros H0 H1.
  pose proof (rows_at_length _ _ _ H0) as Hlen0.
  pose proof (rows_at_length _ _ _ H1) as Hlen1.
  split.
  - intros Hne Hlt Hsplit Hsample. unfold balance.
    rewrite H0, H1. run_steps.
    rewrite <- Hlen0, <- Hlen1, (proj2 (Nat.ltb_lt _ _) Hlt).
    rewrite Hsplit. run_steps.
    destruct data_1 as [|r data_1]; [done|]. cbn [np_array np_concatenate].
    run_steps. apply relabel_even. rewrite length_app. lia.
  - intros Hne Hlt Hsplit Hsample. unfold balance.
    rewrite H0, H1. run_steps.
    rewrite <- Hlen0, <- Hlen1.
    rewrite (proj2 (Nat.ltb_ge _ _)) by lia.
    rewrite (proj2 (Nat.ltb_lt _ _) Hlt).
    rewrite Hsplit. run_steps.
    destruct data_0 as [|r data_0]; [done|]. cbn [np_array np_concatenate].
    run_steps. apply relabel_even. rewrite length_app. lia.
Qed.

(** X17.  When the labels hold one of the two classes and not the other,
    balancing raises, whatever the split does: either the split refuses a
    test size of 0, or joining its two-dimensional result with the empty
    one-dimensional array of the missing class fails. *)
Theorem balance_needs_both_classes (data : list A) (label : vec) :
  (length label ≤ length data)%nat →
  (np_where_eq 0 label = [] ∧ np_where_eq 1 label ≠ []) ∨
  (np_where_eq 1 label = [] ∧ np_where_eq 0 label ≠ []) →
  ∃ e, balance train_test_split data label = raise e.
Proof.
  intros Hrows Hmissing. unfold balance.
  destruct (rows_at_in_range data (np_where_eq 0 label))
    as (data_0 & H0 & Hlen0 & _).
  { eapply Forall_impl; [apply np_where_eq_lt|]. intros i Hi. simpl in *. lia. }
  destruct (rows_at_in_range data (np_where_eq 1 label))
    as (data_1 & H1 & Hlen1 & _).
  { eapply Forall_impl; [apply np_where_eq_lt|]. intros i Hi. simpl in *. lia. }
  rewrite H0, H1. run_steps. rewrite <- Hlen0, <- Hlen1.
  destruct Hmissing as [[Hnone Hsome]|[Hnone Hsome]].
  - rewrite Hnone in *. destruct data_0; [|done].
    destruct (np_where_eq 1 label) as [|i index]; [done|].
    destruct data_1 as [|r data_1]; [done|]. cbn [length Nat.ltb Nat.leb].
    destruct (train_test_split (r :: data_1) 0) as [e|[d t]]; eauto.
  - rewrite Hnone in *. destruct data_1; [|done].
    destruct (np_where_eq 0 label) as [|i index]; [done|].
    destruct data_0 as [|r data_0]; [done|]. cbn [length Nat.ltb Nat.leb].
    destruct (train_test_split (r :: data_0) 0) as [e|[d t]]; eauto.
Qed.
End balancing_properties.

(** ** The outcomes of the predictive-utility evaluation *)

Section outcomes.
Context `{Classifier Clf}.
Variables (train test synthetic : DataFrame).
Variables (Model : unit → Clf) (score : scorer).

(** X18.  The predictive-utility evaluation returns a value exactly when
    the training and the synthetic table have the same column set and the
    holdout table has every training column.  It raises nothing but the
    column exception and the [KeyError] of a training column that the
    holdout table lacks: no failure of the model or of the scorer ends
    it. *)
Theorem prediction_evaluation_outcomes (training_proportion : Q)
    (plot : bool) :
  (is_Some (returned (feature_prediction_evaluation train test synthetic
                        Model score training_proportion plot))
   ↔ list_to_set (columns train) =@{gset label}
       list_to_set (columns synthetic) ∧
     columns train ⊆ columns test) ∧
  (∀ e,
   outcome (feature_prediction_evaluation train test synthetic Model score
              training_proportion plot) = inl e →
   e = Exception "Columns of given datasets are not identical." ∨
   ∃ column, e = KeyError column ∧ column ∈ columns train ∧
             column ∉ columns test).
Proof.
  destruct (decide (list_to_set (columns train) =@{gset label}
                    list_to_set (columns synthetic))) as [Heq|Hne].
  - destruct (decide (columns train ⊆ columns test)) as [Hsub|Hsub].
    + pose proof (fpe_outcome train test synthetic Model score
                    training_proportion plot Heq Hsub) as Hout.
      split; [|intros e He; congruence].
      split; [done|]. intros _. eexists. by apply returned_inr.
    + destruct (fpe_missing train test synthetic Model score
                  training_proportion plot Heq Hsub)
        as (pre & c & post & Hsplit & _ & Hc & Hrun).
      rewrite Hrun. split.
      * split; [by intros [v Hv]|]. by intros [_ ?].
      * intros e [= <-]. right. exists c. split_and!; [done| |done].
        rewrite Hsplit. apply elem_of_app. right. apply elem_of_cons.
        by left.
  - unfold feature_prediction_evaluation. rewrite decide_True by done.
    split.
    + split; [by intros [v Hv]|]. by intros [? _].
    + intros e [= <-]. by left.
Qed.
End outcomes.

(** ** Further worked instances *)


Lemma get_prediction_score_calls_witness :
  let X_train := {| n_rows := 2; col_data := [[0; 1]%Q] |} in
  let X_test := {| n_rows := 2; col_data := [[0; 1]%Q] |} in
  let y_train := [1; 1]%Q in
  let y_test := [1; 0]%Q in
  let failing := λ _ : unit,
    inl (LibraryError "got an unexpected keyword argument")
      : exn + Demo.copy_clf in
  let working := λ u : unit, inr (Demo.Model u) : exn + Demo.copy_clf in
  (y_train ≠ [] ∧ y_test ≠ []) ∧
  get_prediction_score_from X_train y_train X_test y_test
    failing Demo.accuracy =
    ([], inl (LibraryError "got an unexpected keyword argument")) ∧
  ∃ calls prediction,
    get_prediction_score_from X_train y_train X_test y_test
      working Demo.accuracy =
      (Call_fit X_train y_train :: calls ++ [Call_score y_test prediction],
       Demo.accuracy y_test prediction) ∧
    (calls = [] ∨ calls = [Call_predict_proba X_test]).
Proof.
  intros X_train X_test y_train y_test failing working.
  split; [done|]. split.
  - apply (proj1 (get_prediction_score_calls failing Demo.accuracy
                    X_train y_train X_test y_test
                    ltac:(done) ltac:(done))).
    reflexivity.
  - apply (proj2 (get_prediction_score_calls working Demo.accuracy
                    X_train y_train X_test y_test
                    ltac:(done) ltac:(done)) Demo.Unfitted).
    reflexivity.
Defined.

Lemma get_prediction_score_raises_witness :
  let X_train := {| n_rows := 4; col_data := [[0; 1; 0; 1]%Q] |} in
  let X_test := {| n_rows := 2; col_data := [[0; 1]%Q] |} in
  let y_train := [1; 0; 1; 1]%Q in
  let y_test := [1; 0]%Q in
  let e := LibraryError "got an unexpected keyword argument" in
  let failing := λ _ : unit, inl e : exn + Demo.copy_clf in
  outcome (get_prediction_score_from X_train y_train X_test y_test
             failing Demo.accuracy) = inl e ∧
  ((e = RuntimeError "No active exception to reraise" ∧
    (y_train = [] ∨ y_test = [])) ∨
   (y_train ≠ [] ∧ y_test ≠ [] ∧
    (failing () = inl e ∨
     ∃ prediction, Demo.accuracy y_test prediction = inl e))).
Proof.
  intros X_train X_test y_train y_test e failing.
  assert (outcome (get_prediction_score_from X_train y_train X_test y_test
                     failing Demo.accuracy) = inl e) as Hraise
    by reflexivity.
  split; [done|].
  exact (get_prediction_score_raises failing Demo.accuracy
           X_train y_train X_test y_test e Hraise).
Defined.

Lemma get_prediction_score_uses_class_1_witness :
  let X_train := {| n_rows := 4; col_data := [[1; 0; 1; 1]%Q] |} in
  let X_test := {| n_rows := 2; col_data := [[1; 0]%Q] |} in
  let y_train := [0; 1; 0; 1]%Q in
  let y_test := [0; 1]%Q in
  let prediction := Demo.complement [1; 0]%Q in
  let P := {| n_rows := 2;
              col_data := [Demo.complement prediction; prediction] |} in
  (y_train ≠ [] ∧ y_test ≠ [] ∧
   fit (Demo.Model ()) X_train y_train = inr (Demo.Fitted false) ∧
   predict_proba (Demo.Fitted false) X_test = inr P ∧
   col_data P !! 1%nat = Some prediction) ∧
  get_prediction_score X_train y_train X_test y_test
    Demo.Model Demo.accuracy =
    ([Call_fit X_train y_train; Call_predict_proba X_test;
      Call_score y_test prediction],
     Demo.accuracy y_test prediction).
Proof.
  intros X_train X_test y_train y_test prediction P.
  assert (fit (Demo.Model ()) X_train y_train = inr (Demo.Fitted false))
    as Hfit by reflexivity.
  assert (predict_proba (Demo.Fitted false) X_test = inr P) as Hpredict
    by reflexivity.
  assert (col_data P !! 1%nat = Some prediction) as Hcolumn by reflexivity.
  split; [done|].
  by apply (get_prediction_score_uses_class_1 Demo.Model Demo.accuracy
              X_train y_train X_test y_test (Demo.Fitted false) P prediction).
Defined.

Lemma every_column_is_reported_once_witness :
  (list_to_set (columns Demo.real_train) =@{gset label}
     list_to_set (columns Demo.generated) ∧
   columns Demo.real_train ⊆ columns Demo.flat_test) ∧
  omap reported_column
    (trace (feature_prediction_evaluation Demo.real_train Demo.flat_test
              Demo.generated Demo.Model Demo.accuracy (4 # 5) true))
  = [0; 1]%nat.
Proof.
  assert (list_to_set (columns Demo.real_train) =@{gset label}
          list_to_set (columns Demo.generated)) as Heq by by_evaluation.
  assert (columns Demo.real_train ⊆ columns Demo.flat_test) as Hsub
    by by_evaluation.
  split; [done|].
  exact (every_column_is_reported_once Demo.real_train Demo.flat_test
           Demo.generated Demo.Model Demo.accuracy (4 # 5) true Heq Hsub).
Defined.

Lemma no_holdout_rows_scores_nothing_witness :
  (list_to_set (columns Demo.real_train) =@{gset label}
     list_to_set (columns Demo.generated) ∧
   columns Demo.real_train ⊆ columns Samples.holdout_without_rows ∧
   Forall (λ s, s.2 = []) (series Samples.holdout_without_rows)) ∧
  feature_prediction_evaluation Demo.real_train Samples.holdout_without_rows
    Demo.generated Demo.Model Demo.accuracy (4 # 5) false =
  ([Print_exn (RuntimeError "No active exception to reraise");
    Print_failed 0;
    Print_exn (RuntimeError "No active exception to reraise");
    Print_failed 1],
   inr 0%Q).
Proof.
  assert (list_to_set (columns Demo.real_train) =@{gset label}
          list_to_set (columns Demo.generated)) as Heq by by_evaluation.
  assert (columns Demo.real_train ⊆ columns Samples.holdout_without_rows)
    as Hsub by by_evaluation.
  assert (Forall (λ s : label * vec, s.2 = [])
            (series Samples.holdout_without_rows)) as Hempty
    by (by repeat constructor).
  split; [done|].
  exact (no_holdout_rows_scores_nothing Demo.real_train
           Samples.holdout_without_rows Demo.generated Demo.Model
           Demo.accuracy (4 # 5) Heq Hsub Hempty).
Defined.

Lemma aggregate_is_nonnegative_witness :
  ∃ v,
    returned (feature_prediction_evaluation Demo.real_train Demo.real_test
                Demo.generated Demo.Model Demo.accuracy (4 # 5) false)
      = Some v ∧
    (0 <= v)%Q.
Proof.
  destruct (returned (feature_prediction_evaluation Demo.real_train
              Demo.real_test Demo.generated Demo.Model Demo.accuracy
              (4 # 5) false)) as [v|] eqn:Hv; [|by vm_compute in Hv].
  exists v. split; [done|].
  exact (proj1 (aggregate_is_nonnegative Demo.real_train Demo.real_test
                  Demo.generated Demo.Model Demo.accuracy (4 # 5) false
                  v Hv)).
Defined.

(** The example scorer is a share of the rows. *)
Lemma accuracy_bounds (y_true y_pred : vec) (s : Q) :
  Demo.accuracy y_true y_pred = inr s → (0 <= s <= 1)%Q.
Proof.
  unfold Demo.accuracy.
  destruct (length (np_unique y_true) <=? 1)%nat eqn:Hclasses; [done|].
  intros [= <-]. apply ratio_bounds.
  - etrans; [apply length_filter|]. rewrite length_zip_with. lia.
  - destruct y_true; [done|]. simpl. lia.
Qed.

Lemma aggregate_is_at_most_the_number_of_columns_witness :
  (∀ y_true y_pred s,
     Demo.accuracy y_true y_pred = inr s → (0 <= s <= 1)%Q) ∧
  ∃ v,
    returned (feature_prediction_evaluation Demo.real_train Demo.real_test
                Demo.generated Demo.Model Demo.accuracy (4 # 5) false)
      = Some v ∧
    (v <= 2)%Q.
Proof.
  split; [apply accuracy_bounds|].
  destruct (returned (feature_prediction_evaluation Demo.real_train
              Demo.real_test Demo.generated Demo.Model Demo.accuracy
              (4 # 5) false)) as [v|] eqn:Hv; [|by vm_compute in Hv].
  exists v. split; [done|].
  exact (aggregate_is_at_most_the_number_of_columns Demo.real_train
           Demo.real_test Demo.generated Demo.Model Demo.accuracy
           (4 # 5) false v accuracy_bounds Hv).
Defined.

Lemma marginal_probabilities_outcomes_witness :
  (list_to_set (columns Demo.real_train) =@{gset label}
     list_to_set (columns Demo.generated) ∧
   Forall (λ c, cells Demo.real_train c ≠ [] ∧ cells Demo.generated c ≠ [])
     (columns Demo.real_train)) ∧
  is_Some (returned (feature_probabilities_evaluation Demo.real_train
                       Demo.generated false)).
Proof.
  assert (list_to_set (columns Demo.real_train) =@{gset label}
          list_to_set (columns Demo.generated)) as Heq by by_evaluation.
  assert (Forall (λ c, cells Demo.real_train c ≠ [] ∧
                       cells Demo.generated c ≠ [])
            (columns Demo.real_train)) as Hrows
    by (repeat constructor; by vm_compute).
  split; [done|].
  apply (proj1 (marginal_probabilities_outcomes Demo.real_train
                  Demo.generated false)).
  done.
Defined.

Lemma marginal_probabilities_of_same_table_witness :
  Forall (λ c, cells Demo.real_train c ≠ []) (columns Demo.real_train) ∧
  ∃ v,
    returned (feature_probabilities_evaluation Demo.real_train
                Demo.real_train true) = Some v ∧
    (v == 0)%Q.
Proof.
  assert (Forall (λ c, cells Demo.real_train c ≠ [])
            (columns Demo.real_train)) as Hrows
    by (repeat constructor; by vm_compute).
  split; [done|].
  destruct (marginal_probabilities_of_same_table Demo.real_train true)
    as [Hret Hzero].
  destruct (Hret Hrows) as [v Hv]. exists v. split; [done|].
  by apply Hzero.
Defined.

Lemma marginal_probabilities_bounds_witness :
  ∃ v,
    returned (feature_probabilities_evaluation Demo.real_train
                Demo.real_test false) = Some v ∧
    (0 <= v <= 2)%Q.
Proof.
  destruct (returned (feature_probabilities_evaluation Demo.real_train
              Demo.real_test false)) as [v|] eqn:Hv; [|by vm_compute in Hv].
  exists v. split; [done|].
  exact (marginal_probabilities_bounds Demo.real_train Demo.real_test
           false v Hv).
Defined.

Lemma marginal_probabilities_swap_witness :
  (NoDup (columns Demo.real_train) ∧ NoDup (columns Demo.real_test)) ∧
  option_Forall2 Qeq
    (returned (feature_probabilities_evaluation Demo.real_train
                 Demo.real_test false))
    (returned (feature_probabilities_evaluation Demo.real_test
                 Demo.real_train false)).
Proof.
  assert (NoDup (columns Demo.real_train)) as Htrain by by_evaluation.
  assert (NoDup (columns Demo.real_test)) as Htest by by_evaluation.
  split; [done|].
  by apply marginal_probabilities_swap.
Defined.

Lemma balance_keeps_balanced_data_witness :
  ((length Samples.four_labels ≤ length Samples.four_rows)%nat ∧
   length (np_where_eq 0 Samples.four_labels) =
     length (np_where_eq 1 Samples.four_labels)) ∧
  balance split_last Samples.four_rows Samples.four_labels =
    ret (Rows Samples.four_rows, Samples.four_labels).
Proof.
  assert (length Samples.four_labels ≤ length Samples.four_rows)%nat
    as Hrows by (simpl; lia).
  assert (length (np_where_eq 0 Samples.four_labels) =
          length (np_where_eq 1 Samples.four_labels)) as Hsame
    by reflexivity.
  split; [done|].
  exact (balance_keeps_balanced_data split_last Samples.four_rows
           Samples.four_labels Hrows Hsame).
Defined.

Lemma balance_samples_the_larger_class_witness :
  let data_0 := [10; 20; 30]%nat in
  let data_1 := [40; 50]%nat in
  (rows_at Samples.five_rows (np_where_eq 0 Samples.five_labels)
     = inr data_0 ∧
   rows_at Samples.five_rows (np_where_eq 1 Samples.five_labels)
     = inr data_1 ∧
   data_1 ≠ [] ∧ (length data_1 < length data_0)%nat ∧
   split_last data_0 (length data_1) = inr ([10]%nat, [20; 30]%nat) ∧
   length [20; 30]%nat = length data_1) ∧
  balance split_last Samples.five_rows Samples.five_labels =
    ret (Rows [20; 30; 40; 50]%nat, [0; 0; 1; 1]%Q).
Proof.
  intros data_0 data_1.
  assert (rows_at Samples.five_rows (np_where_eq 0 Samples.five_labels)
          = inr data_0) as H0 by reflexivity.
  assert (rows_at Samples.five_rows (np_where_eq 1 Samples.five_labels)
          = inr data_1) as H1 by reflexivity.
  assert (split_last data_0 (length data_1) = inr ([10]%nat, [20; 30]%nat))
    as Hsplit by reflexivity.
  split; [split_and!; try done; simpl; lia|].
  destruct (balance_samples_the_larger_class split_last Samples.five_rows
              Samples.five_labels data_0 data_1 [10]%nat [20; 30]%nat H0 H1)
    as [Hlarger _].
  apply Hlarger; [done|simpl; lia|done|done].
Defined.

Lemma balance_needs_both_classes_witness :
  ((length Samples.three_labels ≤ length Samples.three_rows)%nat ∧
   np_where_eq 1 Samples.three_labels = [] ∧
   np_where_eq 0 Samples.three_labels ≠ []) ∧
  ∃ e, balance split_last Samples.three_rows Samples.three_labels = raise e.
Proof.
  assert (length Samples.three_labels ≤ length Samples.three_rows)%nat
    as Hrows by (simpl; lia).
  assert (np_where_eq 1 Samples.three_labels = []) as Hnone by reflexivity.
  assert (np_where_eq 0 Samples.three_labels ≠ []) as Hsome by done.
  split; [done|].
  apply (balance_needs_both_classes split_last Samples.three_rows
           Samples.three_labels Hrows).
  right. done.
Defined.

Lemma prediction_evaluation_outcomes_witness :
  (list_to_set (columns Demo.real_train) =@{gset label}
     list_to_set (columns Demo.generated) ∧
   columns Demo.real_train ⊆ columns Demo.wide_test) ∧
  is_Some (returned (feature_prediction_evaluation Demo.real_train
                       Demo.wide_test Demo.generated Demo.Model
                       Demo.accuracy (4 # 5) true)).
Proof.
  assert (list_to_set (columns Demo.real_train) =@{gset label}
          list_to_set (columns Demo.generated)) as Heq by by_evaluation.
  assert (columns Demo.real_train ⊆ columns Demo.wide_test) as Hsub
    by by_evaluation.
  split; [done|].
  apply (proj1 (prediction_evaluation_outcomes Demo.real_train
                  Demo.wide_test Demo.generated Demo.Model Demo.accuracy
                  (4 # 5) true)).
  done.
Defined.
